(** * nais-d: the debug session manager and the migration orchestrator

    A shallow embedding of [pkg/debug] (getPodsForWorkload, debugPod,
    attachToExistingDebugContainer, createDebugPod, Debug), of
    [pkg/postgres/migrate] (Setup, doSpinner, SetupSuccessMessage) and of the
    prepare command of [cmd/postgres] (setGrant, getSecretDataValue, RunE).

    The Go code talks to three collaborators: the cluster API, external
    processes started through os/exec, and the terminal.  Each function is
    embedded as a computation in a small monad that threads a state, records
    every call to a collaborator as an event, and may panic (a nil pointer
    dereference).  The answers of the collaborators are read from a world
    record, so that every theorem quantifies over all possible answers. *)

From Stdlib Require Import String Ascii List Arith Lia Bool.
From stdpp Require Import base option list strings pretty gmap.
Import ListNotations.
Open Scope string_scope.
Open Scope list_scope.

(** ** Go errors and fmt *)

(** An [error] value that is not nil.  [err_not_found] is what
    [k8serrors.IsNotFound] answers on it. *)
Record Err := mkErr { err_text : string; err_not_found : bool }.

(** Go's [error] interface value: [None] is nil. *)
Definition error := option Err.

Definition nl : string := String (ascii_of_nat 10) "".

Module Fmt.

Inductive arg :=
| S_ (s : string)
| D_ (n : nat)
| E_ (e : Err).

Definition render (a : arg) : string :=
  match a with
  | S_ s => s
  | D_ n => pretty n
  | E_ e => err_text e
  end.

Definition is_verb (c : ascii) : bool :=
  existsb (Ascii.eqb c) ["s"; "d"; "v"; "w"]%char.

(** [fmt.Sprintf] restricted to the verbs the two packages use (%s, %d, %v,
    %w) and to %%.  A verb without an operand prints Go's MISSING marker. *)
Fixpoint Sprintf (format : string) (args : list arg) : string :=
  match format with
  | "" => ""
  | String "%" (String c rest) =>
      if Ascii.eqb c "%" then String "%" (Sprintf rest args)
      else if is_verb c then
        match args with
        | a :: args' => render a +:+ Sprintf rest args'
        | [] => "%!" +:+ String c "(MISSING)" +:+ Sprintf rest []
        end
      else String "%" (String c (Sprintf rest args))
  | String c rest => String c (Sprintf rest args)
  end.

(** [fmt.Errorf] with %v operands: a fresh error that carries only text. *)
Definition Errorf (format : string) (args : list arg) : Err :=
  mkErr (Sprintf format args) false.

(** [fmt.Errorf] with one %w operand: the wrapped error stays reachable
    through [errors.As], so its classification is kept. *)
Definition Errorf_w (format : string) (e : Err) : Err :=
  mkErr (Sprintf format [E_ e]) (err_not_found e).

(** [strings.Contains]. *)
Fixpoint Contains (s sub : string) : bool :=
  String.prefix sub s ||
  match s with
  | "" => false
  | String _ s' => Contains s' sub
  end.

End Fmt.

(** ** The monad of effectful Go code *)

Module Prog.

Inductive Outcome (A : Type) :=
| Ret (a : A)
| Panic.
Arguments Ret {A} a.
Arguments Panic {A}.

Section Monad.
Context {St Ev : Type}.

(** A computation reads the state, returns or panics, and yields the
    events it emitted (oldest first) with the new state. *)
Definition M (A : Type) : Type := St -> Outcome A * list Ev * St.

Definition ret {A} (a : A) : M A := fun s => (Ret a, [], s).

Definition bind {A B} (m : M A) (f : A -> M B) : M B :=
  fun s =>
    match m s with
    | (Ret a, t1, s1) =>
        match f a s1 with
        | (r, t2, s2) => (r, t1 ++ t2, s2)
        end
    | (Panic, t1, s1) => (Panic, t1, s1)
    end.

Definition emit (e : Ev) : M unit := fun s => (Ret tt, [e], s).

Definition panic {A} : M A := fun s => (Panic, [], s).

(** Dereferencing a Go pointer. *)
Definition deref {A} (p : option A) : M A :=
  match p with
  | Some a => ret a
  | None => panic
  end.

End Monad.

Arguments M : clear implicits.

Definition outcome {St Ev A} (r : Outcome A * list Ev * St) : Outcome A := r.1.1.
Definition events {St Ev A} (r : Outcome A * list Ev * St) : list Ev := r.1.2.
Definition final {St Ev A} (r : Outcome A * list Ev * St) : St := r.2.

End Prog.

Import Prog.

Declare Scope prog_scope.
Delimit Scope prog_scope with prog.
Notation "x <- c1 ;; c2" := (bind c1 (fun x => c2))
  (at level 20, c1 at level 99, c2 at level 200) : prog_scope.
Notation "' pat <- c1 ;; c2" := (bind c1 (fun x => match x with pat => c2 end))
  (at level 20, pat pattern, c1 at level 99, c2 at level 200) : prog_scope.
Notation "c1 ;; c2" := (bind c1 (fun _ => c2))
  (at level 100, c2 at level 200, right associativity) : prog_scope.
Open Scope prog_scope.

(** ** Package debug *)

Module Debug.

Definition debuggerSuffix : string := "nais-debugger".
Definition debuggerContainerDefaultName : string := "debugger".

Record Config := {
  Namespace : string; Context : string;
  WorkloadName : string;
  DebugImage : string;
  CopyPod : bool;
  ByPod : bool
}.

(** The fields of the core_v1 objects that the package reads.
    [cs_Running] is [c.State.Running != nil]. *)
Record ContainerStatus := { cs_Name : string; cs_Running : bool }.

Record Pod := {
  pod_Name : string;
  EphemeralContainers : list string;
  ContainerStatuses : list ContainerStatus
}.

Record PodList := { Items : list Pod }.

(** The four pterm prefix printers in use. *)
Inductive Level := pInfo | pWarning | pSuccess | pError.

(** Every interaction of the package with the outside. *)
Inductive Event :=
| EvPterm (l : Level) (text : string)
| EvList (ns selector : string)
| EvGet (ns name : string)
| EvSleep (seconds : nat)
| EvCmdStart (argv : list string)
| EvCmdWait (argv : list string)
| EvSelect (options : list string).

(** What the collaborators answer.  A Go call returning (pointer, error)
    answers a pair; nothing is assumed about how the two are related.  The
    n-th [Get] of a run may answer differently from the one before: the
    cluster changes while the code polls. *)
Record World := {
  pods_List : string -> string -> option PodList * error;
  pods_Get : nat -> string -> string -> option Pod * error;
  cmd_Start : list string -> error;
  cmd_Wait : list string -> error;
  select_Show : list string -> string * error
}.

(** The number of [Get] requests made so far. *)
Record State := { gets : nat }.

Definition maxRetries : nat := 6.
Definition pollInterval : nat := 5.

Definition debuggerContainerName (podName : string) : string :=
  Fmt.Sprintf "%s-%s" [Fmt.S_ podName; Fmt.S_ debuggerSuffix].

Section DebugCode.
Variable w : World.
Variable cfg : Config.

Abbreviation Go := (M State Event).

Definition pterm (l : Level) (text : string) : Go unit := emit (EvPterm l text).

Definition client_List (selector : string) : Go (option PodList * error) :=
  emit (EvList (Namespace cfg) selector) ;;
  ret (pods_List w (Namespace cfg) selector).

Definition client_Get (name : string) : Go (option Pod * error) :=
  fun s => (Ret (pods_Get w (gets s) (Namespace cfg) name),
            [EvGet (Namespace cfg) name],
            {| gets := S (gets s) |}).

Definition time_Sleep (seconds : nat) : Go unit := emit (EvSleep seconds).

Definition exec_Start (argv : list string) : Go error :=
  emit (EvCmdStart argv) ;; ret (cmd_Start w argv).

Definition exec_Wait (argv : list string) : Go error :=
  emit (EvCmdWait argv) ;; ret (cmd_Wait w argv).

Definition interactive_Select (options : list string) : Go (string * error) :=
  emit (EvSelect options) ;; ret (select_Show w options).

Definition primarySelector : string :=
  Fmt.Sprintf "app.kubernetes.io/name=%s" [Fmt.S_ (WorkloadName cfg)].

Definition fallbackSelector : string :=
  Fmt.Sprintf "app=%s" [Fmt.S_ (WorkloadName cfg)].

Definition getPodsForWorkload : Go (option PodList * error) :=
  pterm pInfo ("Fetching workload..." +:+ nl) ;;
  '(podList, err) <- client_List primarySelector ;;
  first <- deref podList ;;
  '(podList, err) <-
    (if Nat.eqb (length (Items first)) 0
     then client_List fallbackSelector
     else ret (podList, err)) ;;
  match err with
  | Some e => ret (None, Some (Fmt.Errorf_w "failed to get pods: %w" e))
  | None => ret (podList, None)
  end.

Definition attachToExistingDebugContainer (podName : string) : Go error :=
  let argv :=
    ["kubectl"; "attach"; "-n"; Namespace cfg;
     Fmt.Sprintf "pod/%s" [Fmt.S_ podName];
     "-c"; debuggerContainerDefaultName; "-i"; "-t"] in
  let argv :=
    if negb (String.eqb (Context cfg) "")
    then argv ++ ["--context"; Context cfg] else argv in
  err <- exec_Start argv ;;
  match err with
  | Some e => ret (Some (Fmt.Errorf "failed to start attach command: %v" [Fmt.E_ e]))
  | None =>
      pterm pSuccess (Fmt.Sprintf ("Attached to pod %s" +:+ nl) [Fmt.S_ podName]) ;;
      err <- exec_Wait argv ;;
      match err with
      | Some e => ret (Some (Fmt.Errorf "attach command failed: %v" [Fmt.E_ e]))
      | None => ret None
      end
  end.

Definition createDebugPod (podName : string) : Go error :=
  let args :=
    ["debug"; "-n"; Namespace cfg;
     Fmt.Sprintf "pod/%s" [Fmt.S_ podName];
     "-it"; "--stdin"; "--tty"; "--profile=restricted"; "-q";
     "--image"; DebugImage cfg] in
  let args :=
    if negb (String.eqb (Context cfg) "")
    then args ++ ["--context"; Context cfg] else args in
  let args :=
    if CopyPod cfg
    then args ++ ["--copy-to"; debuggerContainerName podName; "-c"; "debugger"]
    else args ++ ["--target"; WorkloadName cfg] in
  let argv := "kubectl" :: args in
  err <- exec_Start argv ;;
  match err with
  | Some e => ret (Some (Fmt.Errorf "failed to start debug command: %v" [Fmt.E_ e]))
  | None =>
      (if CopyPod cfg
       then pterm pInfo
              (Fmt.Sprintf
                 ("Debugging pod copy created, enable process namespace sharing in %s" +:+ nl)
                 [Fmt.S_ (debuggerContainerName podName)])
       else pterm pInfo ("Debugging container created..." +:+ nl)) ;;
      pterm pInfo (Fmt.Sprintf ("Using debugger image %s" +:+ nl) [Fmt.S_ (DebugImage cfg)]) ;;
      err <- exec_Wait argv ;;
      match err with
      | Some e =>
          if Fmt.Contains (err_text e) "exit status 1"
          then pterm pInfo ("Debugging container exited" +:+ nl) ;; ret None
          else ret (Some (Fmt.Errorf "debug command failed: %v" [Fmt.E_ e]))
      | None =>
          (if CopyPod cfg
           then pterm pInfo
                  (Fmt.Sprintf
                     ("Run 'nais debug -cp %s' command to attach to the debug pod" +:+ nl)
                     [Fmt.S_ (WorkloadName cfg)])
           else ret tt) ;;
          ret None
      end
  end.

(** The inner loop of the poll: is some status that of a running container
    called "debugger"? *)
Fixpoint debuggerRunning (statuses : list ContainerStatus) : bool :=
  match statuses with
  | [] => false
  | c :: rest =>
      if String.eqb (cs_Name c) debuggerContainerDefaultName && cs_Running c
      then true
      else debuggerRunning rest
  end.

Definition timeoutErr : Err :=
  Fmt.Errorf "container did not start within the expected time" [].

Definition attemptLine (i : nat) : string :=
  Fmt.Sprintf ("Attempt %d/%d: Time remaining: %d seconds" +:+ nl)
    [Fmt.D_ (i + 1); Fmt.D_ maxRetries; Fmt.D_ ((maxRetries - i) * pollInterval)].

(** [for i := 0; i < maxRetries; i++], entered with [left = maxRetries - i]. *)
Fixpoint pollLoop (pN : string) (left i : nat) : Go error :=
  match left with
  | 0 => ret (Some timeoutErr)
  | S left' =>
      pterm pInfo (attemptLine i) ;;
      '(pod, err) <- client_Get pN ;;
      match err with
      | Some e =>
          ret (Some (Fmt.Errorf "failed to get debug pod copy %s: %v" [Fmt.S_ pN; Fmt.E_ e]))
      | None =>
          p <- deref pod ;;
          if debuggerRunning (ContainerStatuses p)
          then pterm pSuccess ("Container is running. Attaching..." +:+ nl) ;;
               attachToExistingDebugContainer pN
          else time_Sleep pollInterval ;; pollLoop pN left' (i + 1)
      end
  end.

Definition existsLine (pN : string) : string :=
  Fmt.Sprintf ("%s already exists, trying to attach..." +:+ nl) [Fmt.S_ pN].

Definition failedLine (podName : string) (e : Err) : string :=
  Fmt.Sprintf ("Failed to debug pod %s: %v" +:+ nl) [Fmt.S_ podName; Fmt.E_ e].

Definition debugPod (podName : string) : Go error :=
  if CopyPod cfg then
    let pN := debuggerContainerName podName in
    '(_, err) <- client_Get pN ;;
    match err with
    | None =>
        pterm pInfo (existsLine pN) ;;
        pollLoop pN maxRetries 0
    | Some e =>
        if negb (err_not_found e)
        then ret (Some (Fmt.Errorf "failed to check for existing debug pod copy %s: %v"
                          [Fmt.S_ pN; Fmt.E_ e]))
        else createDebugPod podName
    end
  else
    '(pod, err) <- client_Get podName ;;
    match err with
    | Some e => ret (Some (Fmt.Errorf "failed to get pod %s: %v" [Fmt.S_ podName; Fmt.E_ e]))
    | None =>
        p <- deref pod ;;
        (if Nat.ltb 0 (length (EphemeralContainers p))
         then pterm pWarning
                (Fmt.Sprintf
                   ("The container %s already has %d terminated debug containers." +:+ nl)
                   [Fmt.S_ podName; Fmt.D_ (length (EphemeralContainers p))]) ;;
              pterm pInfo
                (Fmt.Sprintf ("Please consider using 'nais debug tidy %s' to clean up" +:+ nl)
                   [Fmt.S_ (WorkloadName cfg)])
         else ret tt) ;;
        createDebugPod podName
    end.

Definition Debug : Go error :=
  '(pods, err) <- getPodsForWorkload ;;
  match err with
  | Some e => ret (Some e)
  | None =>
      pl <- deref pods ;;
      let podNames := map pod_Name (Items pl) in
      match podNames with
      | [] => pterm pInfo ("No pods found." +:+ nl) ;; ret None
      | first :: _ =>
          chosen <-
            (if ByPod cfg then
               '(result, err) <- interactive_Select podNames ;;
               match err with
               | Some e =>
                   pterm pError (Fmt.Sprintf ("Prompt failed: %v" +:+ nl) [Fmt.E_ e]) ;;
                   ret (inr e)
               | None => ret (inl result)
               end
             else ret (inl first)) ;;
          match chosen with
          | inr e => ret (Some e)
          | inl podName =>
              err <- debugPod podName ;;
              match err with
              | Some e => pterm pError (failedLine podName e)
              | None => ret tt
              end ;;
              ret None
          end
      end
  end.
End DebugCode.

(** *** Reading a trace *)

Definition is_launch (e : Event) : bool :=
  match e with EvCmdStart _ => true | _ => false end.

Definition is_attach (e : Event) : bool :=
  match e with EvCmdStart ("kubectl" :: "attach" :: _) => true | _ => false end.

Definition is_get (e : Event) : bool :=
  match e with EvGet _ _ => true | _ => false end.

Definition is_select (e : Event) : bool :=
  match e with EvSelect _ => true | _ => false end.

Definition is_list_of (selector : string) (e : Event) : bool :=
  match e with EvList _ s => String.eqb s selector | _ => false end.

Fixpoint count (p : Event -> bool) (evs : list Event) : nat :=
  match evs with
  | [] => 0
  | e :: evs' => (if p e then 1 else 0) + count p evs'
  end.

(** The seconds slept before each [Get] of a trace: a lower bound on the
    time at which the request is made. *)
Fixpoint get_times (now : nat) (evs : list Event) : list nat :=
  match evs with
  | [] => []
  | EvSleep d :: evs' => get_times (now + d) evs'
  | EvGet _ _ :: evs' => now :: get_times now evs'
  | _ :: evs' => get_times now evs'
  end.

(** Consecutive entries are at least [d] apart. *)
Fixpoint spaced (d : nat) (ts : list nat) : Prop :=
  match ts with
  | t1 :: ((t2 :: _) as rest) => t1 + d <= t2 /\ spaced d rest
  | _ => True
  end.

(** *** Stating the properties *)

(** What a pod reports of its container named debugger: some status of
    that name has State.Running set, or no status of that name has.  The
    statuses of other containers do not count. *)
Definition debugger_reported (running : bool) (statuses : list ContainerStatus) : Prop :=
  if running
  then exists c, In c statuses /\ cs_Name c = "debugger" /\ cs_Running c = true
  else forall c, In c statuses -> cs_Name c = "debugger" -> cs_Running c = false.

Section DebugStatements.
Variable w : World.
Variable cfg : Config.

(** The answer to the n-th request after the current one: the pod is
    there, and its debugger container is running or not. *)
Definition poll_answer (st : State) (pN : string) (n : nat) (running : bool) : Prop :=
  exists p, pods_Get w (gets st + n) (Namespace cfg) pN = (Some p, None) /\
            debuggerRunning (ContainerStatuses p) = running.

(** The same answer, with what the pod reports stated on the statuses and
    not through the check of the code. *)
Definition poll_reports (st : State) (pN : string) (n : nat) (running : bool) : Prop :=
  exists p, pods_Get w (gets st + n) (Namespace cfg) pN = (Some p, None) /\
            debugger_reported running (ContainerStatuses p).

Definition poll_round (pN : string) (i : nat) : list Event :=
  [EvPterm pInfo (attemptLine i); EvGet (Namespace cfg) pN; EvSleep pollInterval].

Definition poll_rounds (pN : string) (i n : nat) : list Event :=
  flat_map (poll_round pN) (seq i n).

End DebugStatements.

Definition lookup_answer (lr : option PodList * error) : option PodList * error :=
  match lr.2 with
  | Some e => (None, Some (Fmt.Errorf_w "failed to get pods: %w" e))
  | None => (lr.1, None)
  end.

(** What Debug makes of the result of debugPod: the error is printed and
    dropped. *)
Definition after_debugPod (podName : string) (r : Outcome error * list Event * State)
  : Outcome error * list Event * State :=
  match r with
  | (Ret (Some e), t, s) => (Ret None, t ++ [EvPterm pError (failedLine podName e)], s)
  | (Ret None, t, s) => (Ret None, t, s)
  | (Panic, t, s) => (Panic, t, s)
  end.

Definition prepend (t : list Event) (r : Outcome error * list Event * State)
  : Outcome error * list Event * State :=
  (outcome r, t ++ events r, final r).

(** *** Concrete runs *)

Definition st0 : State := {| gets := 0 |}.

Definition pod1 : Pod :=
  {| pod_Name := "app-1"; EphemeralContainers := []; ContainerStatuses := [] |}.

Definition copy_of_pod1 (running : bool) : Pod :=
  {| pod_Name := "app-1-nais-debugger";
     EphemeralContainers := [];
     ContainerStatuses := [{| cs_Name := "debugger"; cs_Running := running |}] |}.

(** The copy as kubectl debug makes it: the container of the app, running,
    next to the debugger. *)
Definition copy_with_app (running : bool) : Pod :=
  {| pod_Name := "app-1-nais-debugger";
     EphemeralContainers := [];
     ContainerStatuses := [{| cs_Name := "app"; cs_Running := true |};
                           {| cs_Name := "debugger"; cs_Running := running |}] |}.

Definition cfg_copy : Config :=
  {| Namespace := "team"; Context := ""; WorkloadName := "app";
     DebugImage := "debug:latest"; CopyPod := true; ByPod := false |}.

Definition cfg_bypod : Config :=
  {| Namespace := "team"; Context := ""; WorkloadName := "app";
     DebugImage := "debug:latest"; CopyPod := false; ByPod := true |}.

(** One pod under the primary selector; the copy is running from the
    [running_from]-th request on. *)
Definition world_copy (running_from : nat) : World :=
  {| pods_List := fun _ selector =>
       if String.eqb selector "app.kubernetes.io/name=app"
       then (Some {| Items := [pod1] |}, None)
       else (Some {| Items := [] |}, None);
     pods_Get := fun n _ _ => (Some (copy_of_pod1 (Nat.leb running_from n)), None);
     cmd_Start := fun _ => None;
     cmd_Wait := fun _ => None;
     select_Show := fun _ => ("app-1", None) |}.

(** As [world_copy], with the running container of the app in the copy. *)
Definition world_copy_app (running_from : nat) : World :=
  {| pods_List := fun _ selector =>
       if String.eqb selector "app.kubernetes.io/name=app"
       then (Some {| Items := [pod1] |}, None)
       else (Some {| Items := [] |}, None);
     pods_Get := fun n _ _ => (Some (copy_with_app (Nat.leb running_from n)), None);
     cmd_Start := fun _ => None;
     cmd_Wait := fun _ => None;
     select_Show := fun _ => ("app-1", None) |}.

(** No pod under either selector. *)
Definition world_empty : World :=
  {| pods_List := fun _ _ => (Some {| Items := [] |}, None);
     pods_Get := fun _ _ _ => (None, Some (mkErr "pods not found" true));
     cmd_Start := fun _ => None;
     cmd_Wait := fun _ => None;
     select_Show := fun _ => ("", None) |}.

(** One pod; looking up its copy fails, and not with NotFound. *)
Definition world_get_fails : World :=
  {| pods_List := fun _ selector =>
       if String.eqb selector "app.kubernetes.io/name=app"
       then (Some {| Items := [pod1] |}, None)
       else (Some {| Items := [] |}, None);
     pods_Get := fun _ _ _ => (None, Some (mkErr "connection refused" false));
     cmd_Start := fun _ => None;
     cmd_Wait := fun _ => None;
     select_Show := fun _ => ("app-1", None) |}.

(** The primary query fails, as client-go does: an empty list and an
    error.  The fallback query finds one pod. *)
Definition world_primary_fails : World :=
  {| pods_List := fun _ selector =>
       if String.eqb selector "app.kubernetes.io/name=app"
       then (Some {| Items := [] |}, Some (mkErr "etcdserver: request timed out" false))
       else (Some {| Items := [pod1] |}, None);
     pods_Get := fun _ _ _ => (Some pod1, None);
     cmd_Start := fun _ => None;
     cmd_Wait := fun _ => None;
     select_Show := fun _ => ("app-1", None) |}.

End Debug.

(** ** Package migrate *)

Module Migrate.

(** The message printed when Setup does not wait, a format with eight
    %s verbs. *)
Definition SetupSuccessMessage : string := "
Migration setup has been started successfully.

To monitor the migration, run the following command:
	kubectl logs -f -l %s -n %s

The setup will take some time to complete, you can check completion status with the following command:
	kubectl get job %s -n %s

When setup is complete, a new instance has been created and replication of data has started.
You can check the replication progress in the Google Cloud Console:
	%s

When the migration has Status Running and is in the CDC or Ready to Promote phase,
you can proceed with the next step of the migration:
	nais postgres migrate promote %s %s %s

Be aware that during promotion (the next step), your instance will be unavailable for some time.
".

(** *** The cluster, as the controller-runtime client shows it *)

Inductive Kind := ConfigMap | RoleBinding | Job.

Record Object := {
  obj_Kind : Kind;
  obj_Namespace : string;
  obj_Name : string;
  obj_Labels : gmap string string
}.

Definition Cluster : Type := list Object.

(** [client.InNamespace(ns)] with [client.MatchingLabels(labels)] on a
    ConfigMapList.  The empty namespace lists the ConfigMaps of every
    namespace. *)
Definition selects (ns : string) (labels : gmap string string) (o : Object) : bool :=
  match obj_Kind o with ConfigMap => true | _ => false end
  && (String.eqb ns "" || String.eqb (obj_Namespace o) ns)
  && bool_decide (labels ⊆ obj_Labels o).

(** Modelled from the spec: the instance configuration type is declared
    outside the files at hand.  The instance name and the connection
    parameters that resolution fills in. *)
Record InstanceConfig := {
  InstanceName : string;
  Parameters : list (string * string)
}.

(** Modelled from the spec: the fields of the migration config that Setup
    reads. *)
Record Config := {
  AppName : string;
  Namespace : string;
  Source : InstanceConfig;
  Target : InstanceConfig
}.

Definition Command : Type := string.

Inductive Role := RTarget | RSource.

Inductive LogLevel := LInfo | LWarn | LError.

Inductive Event :=
| EvStdout (text : string)
| EvClientList (ns : string) (labels : gmap string string)
| EvClientCreate (o : Object)
| EvResolve (r : Role)
| EvLookupGcpProjectId
| EvConfirm (accepted : bool)
| EvSleep (seconds : nat)
| EvLog (l : LogLevel) (text : string)
| EvSpinnerStart (text : string)
| EvSpinnerUpdate (text : string)
| EvSpinnerSuccess (text : string)
| EvMultiStart
| EvMultiStop.

(** What lies outside the two functions at hand.  The helpers of the
    package that are declared in other files are taken as they are used:
    [Resolve], [LookupGcpProjectId] read the cluster and answer; String,
    printConfig and kubectlLabelSelector compute a text; confirmContinue
    answers nil when the user agrees.  The two random draws of the i-th
    round of the progress loop are [draw_delay i] and [draw_severity i]. *)
Record World := {
  list_error : error;
  Resolve : InstanceConfig -> Cluster -> string -> string -> InstanceConfig * error;
  InstanceConfig_String : InstanceConfig -> string;
  LookupGcpProjectId : Cluster -> Config -> string * error;
  printConfig_text : Config -> string;
  confirmContinue_answer : error;
  kubectlLabelSelector : Config -> Command -> string;
  CommandSetup : Command;
  spinner_Start : error;
  multi_Start : error;
  draw_delay : nat -> nat;
  draw_severity : nat -> nat
}.

(** The cluster behind [m.client], and [m.cfg]. *)
Record State := { cluster : Cluster; cfg : Config }.

(** [rand.IntnRange(min, max)] from a raw draw: a value in [min, max). *)
Definition IntnRange (min max draw : nat) : nat := min + draw mod (max - min).

Section MigratorCode.
Variable w : World.

Abbreviation Go := (M State Event).

Definition fmt_Print (text : string) : Go unit := emit (EvStdout text).
Definition fmt_Println (text : string) : Go unit := emit (EvStdout (text +:+ nl)).
Definition fmt_Printf (format : string) (args : list Fmt.arg) : Go unit :=
  emit (EvStdout (Fmt.Sprintf format args)).

Definition get_cfg : Go Config := fun s => (Ret (cfg s), [], s).

(** [m.client.List]: a read. *)
Definition client_List (ns : string) (labels : gmap string string)
  : Go (list Object * error) :=
  fun s =>
    (Ret (match list_error w with
          | Some e => ([], Some e)
          | None => (List.filter (selects ns labels) (cluster s), None)
          end),
     [EvClientList ns labels], s).

(** [m.client.Create]: the one way to change the cluster.  Its calls in
    Setup are commented out in the source. *)
Definition client_Create (o : Object) : Go error :=
  fun s => (Ret None, [EvClientCreate o], {| cluster := o :: cluster s; cfg := cfg s |}).

(** [m.cfg.Target.Resolve(ctx, m.client, m.cfg.AppName, m.cfg.Namespace)]:
    updates the receiver. *)
Definition Target_Resolve : Go error :=
  fun s =>
    let c := cfg s in
    let '(t, err) := Resolve w (Target c) (cluster s) (AppName c) (Namespace c) in
    (Ret err, [EvResolve RTarget],
     {| cluster := cluster s;
        cfg := {| AppName := AppName c; Namespace := Namespace c;
                  Source := Source c; Target := t |} |}).

Definition Source_Resolve : Go error :=
  fun s =>
    let c := cfg s in
    let '(t, err) := Resolve w (Source c) (cluster s) (AppName c) (Namespace c) in
    (Ret err, [EvResolve RSource],
     {| cluster := cluster s;
        cfg := {| AppName := AppName c; Namespace := Namespace c;
                  Source := t; Target := Target c |} |}).

Definition m_LookupGcpProjectId : Go (string * error) :=
  fun s => (Ret (LookupGcpProjectId w (cluster s) (cfg s)), [EvLookupGcpProjectId], s).

Definition printConfig : Go unit :=
  c <- get_cfg ;; fmt_Print (printConfig_text w c).

Definition confirmContinue : Go error :=
  emit (EvConfirm (match confirmContinue_answer w with None => true | Some _ => false end)) ;;
  ret (confirmContinue_answer w).

Definition time_Sleep (seconds : nat) : Go unit := emit (EvSleep seconds).

Definition stillRunning (delay : nat) : string :=
  Fmt.Sprintf "Migration setup is still running, waited %d seconds" [Fmt.D_ delay].

(** One round per message of the channel: the goroutine draws a delay,
    sleeps and sends; the receiver draws a severity, logs the previous
    message and shows the new one.  The channel is unbuffered and has one
    sender and one receiver, so the rounds come in this order. *)
Fixpoint spinnerRounds (left i : nat) (prevLog : string) : Go unit :=
  match left with
  | 0 => ret tt
  | S left' =>
      let delay := IntnRange 5 10 (draw_delay w i) in
      time_Sleep delay ;;
      let logMsg := stillRunning delay in
      emit (EvLog (match IntnRange 1 3 (draw_severity w i) with
                   | 1 => LWarn
                   | 2 => LError
                   | _ => LInfo
                   end) prevLog) ;;
      emit (EvSpinnerUpdate logMsg) ;;
      spinnerRounds left' (i + 1) logMsg
  end.

Definition doSpinner : Go error :=
  emit (EvLog LInfo "Migration setup has started") ;;
  emit (EvSpinnerStart "Setting up migration") ;;
  match spinner_Start w with
  | Some e => ret (Some (Fmt.Errorf_w "failed to start spinner: %w" e))
  | None =>
      emit EvMultiStart ;;
      match multi_Start w with
      | Some e => ret (Some (Fmt.Errorf_w "failed to start multi printer: %w" e))
      | None =>
          spinnerRounds 50 0 "" ;;
          emit (EvSpinnerSuccess "Migration setup complete") ;;
          emit EvMultiStop ;;
          ret None
      end
  end.

Definition markerLabels (c : Config) : gmap string string :=
  {[ "migrator.nais.io/app-name" := AppName c ]}.

Definition errAlreadyExists : Err :=
  Fmt.Errorf "migration config already exists for this application" [].
Definition errSourceEmpty : Err := Fmt.Errorf "source instance name is empty" [].
Definition errTargetRequired : Err := Fmt.Errorf "target instance name is required" [].
Definition errSameInstance : Err :=
  Fmt.Errorf "source and target instance names cannot be the same" [].

Definition cloudConsoleUrl (source target gcpProjectId : string) : string :=
  Fmt.Sprintf
    "https://console.cloud.google.com/dbmigration/migrations/locations/europe-north1/instances/%s-%s?project=%s"
    [Fmt.S_ source; Fmt.S_ target; Fmt.S_ gcpProjectId].

Definition creationNotice : string := "
This will create a new database instance and start replication of data from the source instance.
".

Definition Setup (wait : bool) : Go error :=
  c <- get_cfg ;;
  '(cfgMapList, err) <- client_List (Namespace c) (markerLabels c) ;;
  match err with
  | Some e => ret (Some e)
  | None =>
  if Nat.ltb 0 (length cfgMapList) then ret (Some errAlreadyExists) else
  fmt_Println "Resolving target instance config" ;;
  err <- Target_Resolve ;;
  match err with
  | Some e => ret (Some e)
  | None =>
  c <- get_cfg ;;
  fmt_Printf ("Resolved target:" +:+ nl +:+ "%s" +:+ nl)
    [Fmt.S_ (InstanceConfig_String w (Target c))] ;;
  fmt_Println "Resolving source instance config" ;;
  err <- Source_Resolve ;;
  match err with
  | Some e => ret (Some e)
  | None =>
  c <- get_cfg ;;
  fmt_Printf ("Resolved source:" +:+ nl +:+ "%s" +:+ nl)
    [Fmt.S_ (InstanceConfig_String w (Source c))] ;;
  let sourceInstanceName := InstanceName (Source c) in
  if String.eqb sourceInstanceName "" then ret (Some errSourceEmpty) else
  let targetInstanceName := InstanceName (Target c) in
  if String.eqb targetInstanceName "" then ret (Some errTargetRequired) else
  if String.eqb sourceInstanceName targetInstanceName then ret (Some errSameInstance) else
  fmt_Println "Looking up GCP project ID" ;;
  '(gcpProjectId, err) <- m_LookupGcpProjectId ;;
  match err with
  | Some e => ret (Some (Fmt.Errorf_w "failed to lookup GCP project ID: %w" e))
  | None =>
  printConfig ;;
  fmt_Print creationNotice ;;
  err <- confirmContinue ;;
  match err with
  | Some e => ret (Some e)
  | None =>
  ptermFailed <-
    (if wait then
       err <- doSpinner ;;
       match err with
       | Some e =>
           fmt_Println (Fmt.Sprintf "Failed to start spinner: %v" [Fmt.E_ e]) ;;
           ret true
       | None => ret false
       end
     else ret false) ;;
  (if negb wait || ptermFailed then
     let url := cloudConsoleUrl (InstanceName (Source c)) (InstanceName (Target c))
                  gcpProjectId in
     let label := kubectlLabelSelector w c (CommandSetup w) in
     fmt_Printf SetupSuccessMessage
       [Fmt.S_ label; Fmt.S_ (Namespace c); Fmt.S_ "jobName"; Fmt.S_ (Namespace c);
        Fmt.S_ url; Fmt.S_ (AppName c); Fmt.S_ (Namespace c);
        Fmt.S_ (InstanceName (Target c))]
   else ret tt) ;;
  ret None
  end end end end end.
End MigratorCode.

(** *** Reading a trace *)

Definition is_resolve (e : Event) : bool :=
  match e with EvResolve _ => true | _ => false end.

Definition is_confirm (e : Event) : bool :=
  match e with EvConfirm _ => true | _ => false end.

Definition is_create (e : Event) : bool :=
  match e with EvClientCreate _ => true | _ => false end.

Definition is_update (e : Event) : bool :=
  match e with EvSpinnerUpdate _ => true | _ => false end.

Fixpoint count (p : Event -> bool) (evs : list Event) : nat :=
  match evs with
  | [] => 0
  | e :: evs' => (if p e then 1 else 0) + count p evs'
  end.

(** The lines of a text. *)
Fixpoint lines_from (acc : string) (s : string) : list string :=
  match s with
  | "" => [acc]
  | String c s' =>
      if Ascii.eqb c (ascii_of_nat 10) then acc :: lines_from "" s'
      else lines_from (acc +:+ String c "") s'
  end.

Definition lines (s : string) : list string := lines_from "" s.

(** *** Stating the properties *)

(** A migration marker of the config: a ConfigMap of its namespace that
    carries its app name under the label migrator.nais.io/app-name. *)
Definition is_marker (c : Config) (o : Object) : Prop :=
  obj_Kind o = ConfigMap /\
  obj_Namespace o = Namespace c /\
  obj_Labels o !! "migrator.nais.io/app-name" = Some (AppName c).

Definition resolved (c : Config) (t s : InstanceConfig) : Config :=
  {| AppName := AppName c; Namespace := Namespace c; Source := s; Target := t |}.

Definition tab : string := String (ascii_of_nat 9) "".

Definition is_job (o : Object) : bool :=
  match obj_Kind o with Job => true | _ => false end.

Section MigrateStatements.
Variable w : World.

(** What Setup has printed and asked when the two configs are resolved. *)
Definition resolution_trace (c : Config) (t s : InstanceConfig) : list Event :=
  [EvClientList (Namespace c) (markerLabels c);
   EvStdout ("Resolving target instance config" +:+ nl);
   EvResolve RTarget;
   EvStdout (Fmt.Sprintf ("Resolved target:" +:+ nl +:+ "%s" +:+ nl)
               [Fmt.S_ (InstanceConfig_String w t)]);
   EvStdout ("Resolving source instance config" +:+ nl);
   EvResolve RSource;
   EvStdout (Fmt.Sprintf ("Resolved source:" +:+ nl +:+ "%s" +:+ nl)
               [Fmt.S_ (InstanceConfig_String w s)])].

(** The run reaches validation: the list request is answered with no
    marker, and both resolutions succeed, to [t] and [s]. *)
Definition reaches_validation (st : State) (t s : InstanceConfig) : Prop :=
  let c := cfg st in
  list_error w = None /\
  List.filter (selects (Namespace c) (markerLabels c)) (cluster st) = [] /\
  Resolve w (Target c) (cluster st) (AppName c) (Namespace c) = (t, None) /\
  Resolve w (Source c) (cluster st) (AppName c) (Namespace c) = (s, None).

(** The run reaches the confirmation: validation passes and the project
    id is found. *)
Definition reaches_confirmation (st : State) (t s : InstanceConfig) (pid : string) : Prop :=
  reaches_validation st t s /\
  InstanceName s <> "" /\
  InstanceName t <> "" /\
  InstanceName s <> InstanceName t /\
  LookupGcpProjectId w (cluster st) (resolved (cfg st) t s) = (pid, None).

End MigrateStatements.

(** *** Concrete runs *)

Definition inst (name : string) : InstanceConfig :=
  {| InstanceName := name; Parameters := [] |}.

(** Everything succeeds; an unresolved config resolves to the old instance
    of the app. *)
Definition world_ok : World :=
  {| list_error := None;
     Resolve := fun i _ app _ =>
       if String.eqb (InstanceName i) "" then (inst (app +:+ "-old"), None) else (i, None);
     InstanceConfig_String := fun i => "name: " +:+ InstanceName i;
     LookupGcpProjectId := fun _ c => ("proj-" +:+ Namespace c, None);
     printConfig_text := fun c => "app: " +:+ AppName c;
     confirmContinue_answer := None;
     kubectlLabelSelector := fun c cmd =>
       "migrator.nais.io/migration-name=migration-" +:+ AppName c
       +:+ "-" +:+ InstanceName (Target c) +:+ ",migrator.nais.io/command=" +:+ cmd;
     CommandSetup := "setup";
     spinner_Start := None;
     multi_Start := None;
     draw_delay := fun i => i;
     draw_severity := fun i => i |}.

(** As [world_ok], but the spinner cannot start. *)
Definition world_no_spinner : World :=
  {| list_error := None;
     Resolve := Resolve world_ok;
     InstanceConfig_String := InstanceConfig_String world_ok;
     LookupGcpProjectId := LookupGcpProjectId world_ok;
     printConfig_text := printConfig_text world_ok;
     confirmContinue_answer := None;
     kubectlLabelSelector := kubectlLabelSelector world_ok;
     CommandSetup := "setup";
     spinner_Start := Some (mkErr "no terminal" false);
     multi_Start := None;
     draw_delay := fun i => i;
     draw_severity := fun i => i |}.

Definition cfg_app (source target : string) : Config :=
  {| AppName := "app"; Namespace := "team"; Source := inst source; Target := inst target |}.

Definition other_config_map : Object :=
  {| obj_Kind := ConfigMap; obj_Namespace := "team"; obj_Name := "settings";
     obj_Labels := {[ "app" := "app" ]} |}.

Definition marker_of_app : Object :=
  {| obj_Kind := ConfigMap; obj_Namespace := "team"; obj_Name := "migration-app-app-new";
     obj_Labels := {[ "migrator.nais.io/app-name" := "app" ]} |}.

Definition state_fresh : State :=
  {| cluster := [other_config_map]; cfg := cfg_app "" "app-new" |}.

Definition state_marked : State :=
  {| cluster := [other_config_map; marker_of_app]; cfg := cfg_app "" "app-new" |}.

Definition state_same : State :=
  {| cluster := [other_config_map]; cfg := cfg_app "app-db" "app-db" |}.

End Migrate.

(** ** More ways to read a debug trace *)

Module DebugMore.
Import Debug.

Definition is_warning (e : Event) : bool :=
  match e with EvPterm pWarning _ => true | _ => false end.

Definition is_debug_launch (e : Event) : bool :=
  match e with EvCmdStart ("kubectl" :: "debug" :: _) => true | _ => false end.

(** The command lines of the processes a trace starts, oldest first. *)
Fixpoint started (evs : list Event) : list (list string) :=
  match evs with
  | [] => []
  | EvCmdStart argv :: evs' => argv :: started evs'
  | _ :: evs' => started evs'
  end.

Definition is_list (e : Event) : bool :=
  match e with EvList _ _ => true | _ => false end.

(** The seconds a trace sleeps in all. *)
Fixpoint slept (evs : list Event) : nat :=
  match evs with
  | [] => 0
  | EvSleep d :: evs' => d + slept evs'
  | _ :: evs' => slept evs'
  end.

(** The five numbers of a trace that the bounds are about. *)
Definition within (evs : list Event) (lists selects gets launches seconds : nat) : Prop :=
  count is_list evs <= lists /\
  count is_select evs <= selects /\
  count is_get evs <= gets /\
  count is_launch evs <= launches /\
  slept evs <= seconds.

(** The copy of the one pod does not exist. *)
Definition world_no_copy : World :=
  {| pods_List := fun _ selector =>
       if String.eqb selector "app.kubernetes.io/name=app"
       then (Some {| Items := [pod1] |}, None)
       else (Some {| Items := [] |}, None);
     pods_Get := fun _ _ _ => (None, Some (mkErr "pods not found" true));
     cmd_Start := fun _ => None;
     cmd_Wait := fun _ => None;
     select_Show := fun _ => ("app-1", None) |}.

(** The pod is there, with [n] ephemeral containers; every process starts
    and ends as [wait] says. *)
Definition world_pod (n : nat) (wait : error) : World :=
  {| pods_List := fun _ selector =>
       if String.eqb selector "app.kubernetes.io/name=app"
       then (Some {| Items := [pod1] |}, None)
       else (Some {| Items := [] |}, None);
     pods_Get := fun _ _ _ =>
       (Some {| pod_Name := "app-1";
                EphemeralContainers := repeat "debugger-x" n;
                ContainerStatuses := [] |}, None);
     cmd_Start := fun _ => None;
     cmd_Wait := fun _ => wait;
     select_Show := fun _ => ("app-1", None) |}.

(** The copy exists; the first [k] polls see it pending, the next one
    fails. *)
Definition world_poll_fails (k : nat) : World :=
  {| pods_List := fun _ selector =>
       if String.eqb selector "app.kubernetes.io/name=app"
       then (Some {| Items := [pod1] |}, None)
       else (Some {| Items := [] |}, None);
     pods_Get := fun n _ _ =>
       if Nat.leb n k then (Some (copy_of_pod1 false), None)
       else (None, Some (mkErr "connection reset" false));
     cmd_Start := fun _ => None;
     cmd_Wait := fun _ => None;
     select_Show := fun _ => ("app-1", None) |}.

(** The user aborts the selection. *)
Definition world_prompt_fails : World :=
  {| pods_List := fun _ selector =>
       if String.eqb selector "app.kubernetes.io/name=app"
       then (Some {| Items := [pod1] |}, None)
       else (Some {| Items := [] |}, None);
     pods_Get := fun _ _ _ => (Some pod1, None);
     cmd_Start := fun _ => None;
     cmd_Wait := fun _ => None;
     select_Show := fun _ => ("", Some (mkErr "interrupted" false)) |}.

(** No pod under the primary selector, and the fallback query fails. *)
Definition world_fallback_fails : World :=
  {| pods_List := fun _ selector =>
       if String.eqb selector "app.kubernetes.io/name=app"
       then (Some {| Items := [] |}, None)
       else (Some {| Items := [] |}, Some (mkErr "forbidden" false));
     pods_Get := fun _ _ _ => (Some pod1, None);
     cmd_Start := fun _ => None;
     cmd_Wait := fun _ => None;
     select_Show := fun _ => ("app-1", None) |}.

(** The primary query fails with a nil list, as a fake clientset does. *)
Definition world_nil_list : World :=
  {| pods_List := fun _ _ => (None, Some (mkErr "boom" false));
     pods_Get := fun _ _ _ => (Some pod1, None);
     cmd_Start := fun _ => None;
     cmd_Wait := fun _ => None;
     select_Show := fun _ => ("app-1", None) |}.

Definition cfg_plain : Config :=
  {| Namespace := "team"; Context := "dev"; WorkloadName := "app";
     DebugImage := "debug:latest"; CopyPod := false; ByPod := false |}.

End DebugMore.

(** ** More ways to read a migration trace *)

Module MigrateMore.
Import Migrate.

(** The seconds a trace sleeps in all. *)
Fixpoint slept (evs : list Event) : nat :=
  match evs with
  | [] => 0
  | EvSleep d :: evs' => d + slept evs'
  | _ :: evs' => slept evs'
  end.

(** The texts handed to the logger, in order. *)
Fixpoint log_texts (evs : list Event) : list string :=
  match evs with
  | [] => []
  | EvLog _ text :: evs' => text :: log_texts evs'
  | _ :: evs' => log_texts evs'
  end.

(** The texts shown on the spinner, in order. *)
Fixpoint update_texts (evs : list Event) : list string :=
  match evs with
  | [] => []
  | EvSpinnerUpdate text :: evs' => text :: update_texts evs'
  | _ :: evs' => update_texts evs'
  end.

Definition is_info_log (e : Event) : bool :=
  match e with EvLog LInfo _ => true | _ => false end.

(** The resolutions of a trace, in order. *)
Fixpoint resolves (evs : list Event) : list Role :=
  match evs with
  | [] => []
  | EvResolve r :: evs' => r :: resolves evs'
  | _ :: evs' => resolves evs'
  end.

(** What the list call of Setup returns: a ConfigMap that carries the app
    name under migrator.nais.io/app-name, in the namespace of the config or,
    when the config names no namespace, in any namespace. *)
Definition listed (c : Config) (o : Object) : Prop :=
  obj_Kind o = ConfigMap /\
  (Namespace c = "" \/ obj_Namespace o = Namespace c) /\
  obj_Labels o !! "migrator.nais.io/app-name" = Some (AppName c).

Section MoreStatements.
Variable w : World.

(** The run gets past the marker check. *)
Definition unmarked (st : State) : Prop :=
  list_error w = None /\
  List.filter (selects (Namespace (cfg st)) (markerLabels (cfg st))) (cluster st) = [].

End MoreStatements.

(** As [world_ok], with the answers of the resolver, of the project lookup
    and of the confirmation given. *)
Definition world_with
    (resolve : InstanceConfig -> Cluster -> string -> string -> InstanceConfig * error)
    (lookup : string * error) (confirm : error) : World :=
  {| list_error := None;
     Resolve := resolve;
     InstanceConfig_String := InstanceConfig_String world_ok;
     LookupGcpProjectId := fun _ _ => lookup;
     printConfig_text := printConfig_text world_ok;
     confirmContinue_answer := confirm;
     kubectlLabelSelector := kubectlLabelSelector world_ok;
     CommandSetup := "setup";
     spinner_Start := None;
     multi_Start := None;
     draw_delay := fun i => i;
     draw_severity := fun i => i |}.

(** The target cannot be resolved. *)
Definition world_target_fails : World :=
  world_with
    (fun i _ _ _ =>
       if String.eqb (InstanceName i) "" then (inst "app-old", None)
       else (i, Some (mkErr "no such instance" true)))
    ("proj-team", None) None.

(** The source cannot be resolved. *)
Definition world_source_fails : World :=
  world_with
    (fun i _ _ _ =>
       if String.eqb (InstanceName i) "" then (i, Some (mkErr "no sql instance" true))
       else (i, None))
    ("proj-team", None) None.

(** The namespace has no project id. *)
Definition world_lookup_fails : World :=
  world_with (Resolve world_ok) ("", Some (mkErr "namespace not found" true)) None.

(** The user answers no. *)
Definition world_cancel : World :=
  world_with (Resolve world_ok) ("proj-team", None) (Some (mkErr "cancelled by user" false)).

(** A config that names no namespace, and a marker of the app in some
    namespace. *)
Definition state_no_namespace : State :=
  {| cluster := [other_config_map; marker_of_app];
     cfg := {| AppName := "app"; Namespace := "";
               Source := inst ""; Target := inst "app-new" |} |}.

End MigrateMore.

(** ** Package postgres: the prepare command *)

Module Postgres.

(** *** The standard library functions in use *)

(** [s[n:]]. *)
Fixpoint skip (n : nat) (s : string) : string :=
  match n, s with
  | 0, _ => s
  | S n', String _ s' => skip n' s'
  | S _, "" => ""
  end.

(** [strings.Replace(s, old, new, 1)]: the first [old] in [s] becomes
    [new]. *)
Fixpoint Replace1 (s old new : string) : string :=
  if String.prefix old s then new +:+ skip (String.length old) s
  else match s with
       | "" => ""
       | String c s' => String c (Replace1 s' old new)
       end.

(** [strings.HasSuffix]. *)
Definition HasSuffix (s suffix : string) : bool :=
  Nat.leb (String.length suffix) (String.length s)
  && String.eqb
       (String.substring (String.length s - String.length suffix)
          (String.length suffix) s)
       suffix.

(** The white space of [unicode.IsSpace], as UTF-8: six ASCII bytes, the
    two-byte U+0085 and U+00A0, and the three-byte U+1680, U+2000 to
    U+200A, U+2028, U+2029, U+202F, U+205F and U+3000. *)
Definition space1 (a : ascii) : bool :=
  let n := nat_of_ascii a in
  (Nat.leb 9 n && Nat.leb n 13) || Nat.eqb n 32.

Definition space2 (a b : ascii) : bool :=
  Nat.eqb (nat_of_ascii a) 194
  && (Nat.eqb (nat_of_ascii b) 133 || Nat.eqb (nat_of_ascii b) 160).

Definition space3 (a b c : ascii) : bool :=
  let x := nat_of_ascii a in
  let y := nat_of_ascii b in
  let z := nat_of_ascii c in
  (Nat.eqb x 225 && Nat.eqb y 154 && Nat.eqb z 128)
  || (Nat.eqb x 226 && Nat.eqb y 128
      && ((Nat.leb 128 z && Nat.leb z 138)
          || Nat.eqb z 168 || Nat.eqb z 169 || Nat.eqb z 175))
  || (Nat.eqb x 226 && Nat.eqb y 129 && Nat.eqb z 159)
  || (Nat.eqb x 227 && Nat.eqb y 128 && Nat.eqb z 128).

(** Dropping the white space at the front of a byte sequence.  With
    [backwards] the sequence is a reversed text, and the bytes of a rune
    come last byte first. *)
Fixpoint trimFront (backwards : bool) (s : list ascii) : list ascii :=
  match s with
  | a :: s1 =>
      if space1 a then trimFront backwards s1 else
      match s1 with
      | b :: s2 =>
          if (if backwards then space2 b a else space2 a b)
          then trimFront backwards s2 else
          match s2 with
          | c :: s3 =>
              if (if backwards then space3 c b a else space3 a b c)
              then trimFront backwards s3 else s
          | [] => s
          end
      | [] => s
      end
  | [] => []
  end.

(** [strings.TrimSpace]. *)
Definition TrimSpace (s : string) : string :=
  string_of_list_ascii
    (rev (trimFront true (rev (trimFront false (list_ascii_of_string s))))).

Definition fold_ascii (a : ascii) : ascii :=
  let n := nat_of_ascii a in
  if Nat.leb 65 n && Nat.leb n 90 then ascii_of_nat (n + 32) else a.

(** [strings.EqualFold(s, t)] for a [t] of ASCII letters other than k and
    s, the two that fold to a rune outside ASCII: byte by byte, up to the
    case of ASCII letters. *)
Fixpoint EqualFold (s t : string) : bool :=
  match s, t with
  | "", "" => true
  | String a s', String b t' => Ascii.eqb (fold_ascii a) (fold_ascii b) && EqualFold s' t'
  | _, _ => false
  end.

(** *** The package *)

Definition prepareHelp : string := "Prepare will prepare the postgres instance by connecting using the
application credentials and modify the permissions on the public schema.
All IAM users in your GCP project will be able to connect to the instance.

This operation is only required to run once for each postgresql instance.".

Definition ddlStatements : list string :=
  ["alter default privileges in schema public grant CHANGEME on tables to cloudsqliamuser;";
   "alter default privileges in schema public grant CHANGEME on sequences to cloudsqliamuser;";
   "grant CHANGEME on all tables in schema public to cloudsqliamuser;";
   "grant CHANGEME on all sequences in schema public to cloudsqliamuser;"].

Definition setGrant (sql : string) (allPrivs : bool) : string :=
  let sqlGrant := "SELECT" in
  let sqlGrant := if allPrivs then "ALL" else sqlGrant in
  Replace1 sql "CHANGEME" sqlGrant.

(** [corev1.Secret], its Data. *)
Record Secret := { Data : gmap string string }.

Section Range.
(** The order in which [range] visits a map. *)
Variable range : gmap string string -> list (string * string).

Fixpoint firstWithSuffix (entries : list (string * string)) (suffix : string) : string :=
  match entries with
  | [] => ""
  | (name, val) :: rest =>
      if HasSuffix name suffix then val else firstWithSuffix rest suffix
  end.

Definition getSecretDataValue (secret : option Secret) (suffix : string)
  : Outcome string :=
  match secret with
  | None => Panic
  | Some s => Ret (firstWithSuffix (range (Data s)) suffix)
  end.
End Range.

(** Go promises that [range] visits every entry once, in some order. *)
Definition visits_once (range : gmap string string -> list (string * string)) : Prop :=
  forall m, range m ≡ₚ map_to_list m.

Inductive Event :=
| EvNewDBInfo (appName namespace context : string)
| EvStdout (text : string)
| EvScan
| EvDBConnection
| EvOpen (driverName dataSourceName : string)
| EvExec (query : string)
| EvClose
| EvFatal (e : Err).

(** How the command ends: RunE returns, or [log.Fatal] ends the process. *)
Inductive Ending :=
| Returned (err : error)
| Exited (status : nat).

(** The flags, the terminal and the database.  [stdin_Text] is what
    [input.Text()] gives after the one Scan. *)
Record World := {
  flag_namespace : string;
  flag_context : string;
  flag_allPrivs : bool;
  NewDBInfo : string -> string -> string -> error;
  stdin_Text : string;
  DBConnection : string * error;
  sql_Open : string -> string -> error;
  db_ExecContext : string -> error
}.

Section Prepare.
Variable w : World.

Abbreviation Go := (M unit Event).

(** [log.Fatal(err)]: the deferred Close does not run. *)
Definition log_Fatal (e : Err) : Go Ending :=
  emit (EvFatal e) ;; ret (Exited 1).

(** [for _, ddl := range ddlStatements], then the deferred [db.Close()]
    and [return nil]. *)
Fixpoint execAll (ddls : list string) : Go Ending :=
  match ddls with
  | [] => emit EvClose ;; ret (Returned None)
  | ddl :: rest =>
      let query := setGrant ddl (flag_allPrivs w) in
      emit (EvExec query) ;;
      match db_ExecContext w query with
      | Some e => log_Fatal e
      | None => execAll rest
      end
  end.

Definition confirmed (text : string) : bool := EqualFold (TrimSpace text) "y".

Definition RunE (args : list string) : Go Ending :=
  match args with
  | [] => panic
  | appName :: _ =>
      emit (EvNewDBInfo appName (flag_namespace w) (flag_context w)) ;;
      match NewDBInfo w appName (flag_namespace w) (flag_context w) with
      | Some e => ret (Returned (Some e))
      | None =>
          emit (EvStdout (prepareHelp +:+ nl)) ;;
          emit (EvStdout (nl +:+ "Are you sure you want to continue (y/N): ")) ;;
          emit EvScan ;;
          if negb (confirmed (stdin_Text w))
          then ret (Returned (Some (Fmt.Errorf "cancelled by user" [])))
          else
            emit EvDBConnection ;;
            match DBConnection w with
            | (_, Some e) => ret (Returned (Some e))
            | (connectionString, None) =>
                emit (EvOpen "cloudsqlpostgres" connectionString) ;;
                match sql_Open w "cloudsqlpostgres" connectionString with
                | Some e => log_Fatal e
                | None => execAll ddlStatements
                end
            end
      end
  end.
End Prepare.

Section PrepareStatements.
Variable w : World.

(** The run reaches the statements: the database is known, the answer is
    accepted, the connection is described and opened. *)
Definition reaches_statements (appName connectionString : string) : Prop :=
  NewDBInfo w appName (flag_namespace w) (flag_context w) = None /\
  confirmed (stdin_Text w) = true /\
  DBConnection w = (connectionString, None) /\
  sql_Open w "cloudsqlpostgres" connectionString = None.

End PrepareStatements.

(** *** Reading a trace *)

(** The statements sent to the database, in order. *)
Fixpoint queries (evs : list Event) : list string :=
  match evs with
  | [] => []
  | EvExec q :: evs' => q :: queries evs'
  | _ :: evs' => queries evs'
  end.

Definition is_close (e : Event) : bool :=
  match e with EvClose => true | _ => false end.

Definition touches_database (e : Event) : bool :=
  match e with
  | EvDBConnection | EvOpen _ _ | EvExec _ | EvClose => true
  | _ => false
  end.



(** *** Concrete runs *)

Definition world_prepare (answer : string) (exec : string -> error) : World :=
  {| flag_namespace := "team";
     flag_context := "dev";
     flag_allPrivs := false;
     NewDBInfo := fun _ _ _ => None;
     stdin_Text := answer;
     DBConnection := ("host=proj:region:db user=app", None);
     sql_Open := fun _ _ => None;
     db_ExecContext := exec |}.

(** The statements that start with the word grant are refused. *)
Definition refuse_grants (query : string) : error :=
  if String.prefix "grant" query then Some (mkErr "permission denied" false) else None.

Definition secret_app : Secret :=
  {| Data := {[ "NAIS_DATABASE_APP_DB_PASSWORD" := "hunter2";
                "NAIS_DATABASE_APP_DB_USERNAME" := "app" ]} |}.

End Postgres.

(** ** Properties of package debug *)

Module DebugProps.
Import Debug.

Ltac go_unfold :=
  unfold Debug, debugPod, getPodsForWorkload, createDebugPod,
    attachToExistingDebugContainer, interactive_Select, exec_Start, exec_Wait,
    client_List, client_Get, time_Sleep, pterm, deref, bind, emit, ret, panic,
    outcome, events, final in *.

Ltac prim_unfold :=
  unfold interactive_Select, exec_Start, exec_Wait, client_List, client_Get,
    time_Sleep, pterm, deref, bind, emit, ret, panic, outcome, events, final in *.

(** Case analysis on the innermost scrutinee whose value is not known. *)
Ltac split_step :=
  match goal with
  | |- context [match ?x with _ => _ end] =>
      lazymatch x with
      | context [match _ with _ => _ end] => fail
      | _ => destruct x eqn:?
      end
  end.

Ltac split_cases := repeat (cbn; split_step); cbn.

Lemma count_app p (l1 l2 : list Event) :
  count p (l1 ++ l2) = count p l1 + count p l2.
Proof. induction l1 as [|e l1 IH]; cbn; [reflexivity|]. rewrite IH. lia. Qed.

Section DebugFacts.
Variable w : World.
Variable cfg : Config.

Abbreviation ns := (Namespace cfg).

(** *** attach and create *)

Lemma attach_one_launch pN st :
  count is_attach (events (attachToExistingDebugContainer w cfg pN st)) = 1.
Proof. go_unfold. split_cases; reflexivity. Qed.

Lemma attach_no_get pN st :
  count is_get (events (attachToExistingDebugContainer w cfg pN st)) = 0.
Proof. go_unfold. split_cases; reflexivity. Qed.

Lemma attach_no_select pN st :
  count is_select (events (attachToExistingDebugContainer w cfg pN st)) = 0.
Proof. go_unfold. split_cases; reflexivity. Qed.

Lemma attach_not_timeout pN st :
  outcome (attachToExistingDebugContainer w cfg pN st) <> Ret (Some timeoutErr).
Proof. go_unfold. split_cases; discriminate. Qed.

Lemma attach_returns pN st :
  outcome (attachToExistingDebugContainer w cfg pN st) <> Panic.
Proof. go_unfold. split_cases; discriminate. Qed.

Lemma create_no_select podName st :
  count is_select (events (createDebugPod w cfg podName st)) = 0.
Proof. go_unfold. split_cases; reflexivity. Qed.

(** *** One round of the poll *)

Lemma pollLoop_waiting pN left i st p :
  pods_Get w (gets st) ns pN = (Some p, None) ->
  debuggerRunning (ContainerStatuses p) = false ->
  pollLoop w cfg pN (S left) i st =
    let r := pollLoop w cfg pN left (i + 1) {| gets := S (gets st) |} in
    (outcome r,
     EvPterm pInfo (attemptLine i) :: EvGet ns pN :: EvSleep pollInterval :: events r,
     final r).
Proof.
  intros Hget Hrun. cbn [pollLoop]. go_unfold. cbn. rewrite Hget. cbn.
  rewrite Hrun. cbn.
  destruct (pollLoop w cfg pN left (i + 1) _) as [[o t] s]. reflexivity.
Qed.

Lemma pollLoop_running pN left i st p :
  pods_Get w (gets st) ns pN = (Some p, None) ->
  debuggerRunning (ContainerStatuses p) = true ->
  pollLoop w cfg pN (S left) i st =
    let r := attachToExistingDebugContainer w cfg pN {| gets := S (gets st) |} in
    (outcome r,
     EvPterm pInfo (attemptLine i) :: EvGet ns pN
       :: EvPterm pSuccess ("Container is running. Attaching..." +:+ nl) :: events r,
     final r).
Proof.
  intros Hget Hrun. cbn [pollLoop]. prim_unfold.
  cbn -[attachToExistingDebugContainer]. rewrite Hget.
  cbn -[attachToExistingDebugContainer]. rewrite Hrun.
  destruct (attachToExistingDebugContainer w cfg pN _) as [[o t] s]. reflexivity.
Qed.

Lemma poll_answer_shift st pN n b :
  poll_answer w cfg st pN (S n) b -> poll_answer w cfg {| gets := S (gets st) |} pN n b.
Proof.
  intros (p & Hp & Hb). exists p. cbn. split; [|exact Hb].
  rewrite <- Hp. f_equal. lia.
Qed.

Lemma poll_answer_now st pN b :
  poll_answer w cfg st pN 0 b ->
  exists p, pods_Get w (gets st) ns pN = (Some p, None) /\
            debuggerRunning (ContainerStatuses p) = b.
Proof.
  intros (p & Hp & Hb). exists p. split; [|exact Hb].
  rewrite <- Hp. f_equal. lia.
Qed.

(** *** The loop reaches a running container *)

Lemma pollLoop_attaches k : forall left i st pN,
  k < left ->
  (forall j, j < k -> poll_answer w cfg st pN j false) ->
  poll_answer w cfg st pN k true ->
  let r := pollLoop w cfg pN left i st in
  count is_attach (events r) = 1 /\
  count is_get (events r) = S k /\
  outcome r <> Ret (Some timeoutErr) /\
  outcome r <> Panic.
Proof.
  induction k as [|k IH]; intros left i st pN Hlt Hwait Hrun.
  - destruct left as [|left]; [lia|].
    apply poll_answer_now in Hrun as (p & Hp & Hb).
    rewrite (pollLoop_running _ _ _ _ _ Hp Hb).
    cbv zeta. remember (attachToExistingDebugContainer _ _ _ _) as a. cbn. subst a.
    rewrite attach_one_launch, attach_no_get.
    repeat split; [apply attach_not_timeout | apply attach_returns].
  - destruct left as [|left]; [lia|].
    destruct (poll_answer_now st pN false (Hwait 0 ltac:(lia))) as (p & Hp & Hb).
    rewrite (pollLoop_waiting _ _ _ _ _ Hp Hb).
    cbv zeta. remember (pollLoop _ _ _ _ _ _) as r. cbn. subst r.
    destruct (IH left (i + 1) {| gets := S (gets st) |} pN) as (Ha & Hg & Ht & Hn).
    + lia.
    + intros j Hj. apply poll_answer_shift, Hwait. lia.
    + apply poll_answer_shift, Hrun.
    + rewrite Ha, Hg. repeat split; assumption.
Qed.

(** *** The loop gives up *)

Lemma pollLoop_times_out left : forall i st pN,
  (forall j, j < left -> poll_answer w cfg st pN j false) ->
  pollLoop w cfg pN left i st =
    (Ret (Some timeoutErr), poll_rounds cfg pN i left, {| gets := gets st + left |}).
Proof.
  induction left as [|left IH]; intros i st pN Hwait.
  - cbn. unfold ret. destruct st as [g]. cbn. do 2 f_equal. lia.
  - destruct (poll_answer_now st pN false (Hwait 0 ltac:(lia))) as (p & Hp & Hb).
    rewrite (pollLoop_waiting _ _ _ _ _ Hp Hb).
    rewrite IH.
    + cbn. unfold poll_rounds. cbn. replace (i + 1) with (S i) by lia.
      do 2 f_equal. lia.
    + intros j Hj. apply poll_answer_shift, Hwait. lia.
Qed.

Lemma poll_rounds_gets pN i n : count is_get (poll_rounds cfg pN i n) = n.
Proof.
  unfold poll_rounds. revert i. induction n as [|n IH]; intros i; cbn; [reflexivity|].
  rewrite IH. reflexivity.
Qed.

Lemma poll_rounds_no_attach pN i n : count is_attach (poll_rounds cfg pN i n) = 0.
Proof.
  unfold poll_rounds. revert i. induction n as [|n IH]; intros i; cbn; [reflexivity|].
  apply IH.
Qed.

(** *** debugPod on an existing copy *)

Lemma debugPod_copy_exists podName st :
  CopyPod cfg = true ->
  (pods_Get w (gets st) ns (debuggerContainerName podName)).2 = None ->
  debugPod w cfg podName st =
    let pN := debuggerContainerName podName in
    let r := pollLoop w cfg pN maxRetries 0 {| gets := S (gets st) |} in
    (outcome r, EvGet ns pN :: EvPterm pInfo (existsLine pN) :: events r, final r).
Proof.
  intros Hcopy Hget. unfold debugPod. rewrite Hcopy. prim_unfold.
  destruct (pods_Get w (gets st) ns (debuggerContainerName podName)) as [x err].
  cbn in Hget. subst err. cbv zeta.
  remember (debuggerContainerName podName) as pN.
  cbn -[pollLoop maxRetries].
  destruct (pollLoop w cfg pN maxRetries 0 _) as [[o t] s]. reflexivity.
Qed.

(** The check of the code agrees with what the statuses report. *)
Lemma debuggerRunning_reported running : forall statuses,
  debugger_reported running statuses -> debuggerRunning statuses = running.
Proof.
  destruct running; cbn [debugger_reported].
  - induction statuses as [|c0 rest IH]; intros (c & Hin & Hname & Hrun).
    + destruct Hin.
    + cbn [debuggerRunning].
      destruct (String.eqb (cs_Name c0) debuggerContainerDefaultName && cs_Running c0)
        eqn:H0; [reflexivity|].
      apply IH. exists c. split; [|split; assumption].
      destruct Hin as [<- | Hin]; [|exact Hin].
      exfalso. rewrite Hname, Hrun in H0. discriminate H0.
  - induction statuses as [|c0 rest IH]; intros Hnone; [reflexivity|].
    cbn [debuggerRunning].
    destruct (String.eqb (cs_Name c0) debuggerContainerDefaultName) eqn:Hname.
    + apply String.eqb_eq in Hname.
      rewrite (Hnone c0 (or_introl eq_refl) Hname). cbn [andb].
      apply IH. intros c Hin. apply Hnone. right. exact Hin.
    + cbn [andb]. apply IH. intros c Hin. apply Hnone. right. exact Hin.
Qed.

Lemma poll_reports_answer st pN n running :
  poll_reports w cfg st pN n running -> poll_answer w cfg st pN n running.
Proof.
  intros (p & Hp & Hr). exists p. split; [exact Hp|].
  apply debuggerRunning_reported, Hr.
Qed.

(** C3. Copy-pod mode, the copy exists.  The n-th poll is the n-th [Get]
    after the existence check.  A poll sees the debugger running when some
    container status named debugger has State.Running set; the statuses of
    other containers do not count.  If the debugger is first seen running
    at poll n, n < 6, one attach is launched, after n polls, and the result
    is not the timeout.  If none of the six polls sees it running, the
    result is the timeout, after exactly six polls, each followed by a sleep
    of five seconds: poll k is made no earlier than 5 (k - 1) seconds after
    the first. *)
Theorem debugPod_attach_retry podName st :
  CopyPod cfg = true ->
  (pods_Get w (gets st) ns (debuggerContainerName podName)).2 = None ->
  let pN := debuggerContainerName podName in
  let r := debugPod w cfg podName st in
  (forall n, 1 <= n -> n < maxRetries ->
     (forall j, 1 <= j -> j < n -> poll_reports w cfg st pN j false) ->
     poll_reports w cfg st pN n true ->
     count is_attach (events r) = 1 /\
     count is_get (events r) = 1 + n /\
     outcome r <> Ret (Some timeoutErr) /\
     outcome r <> Panic)
  /\
  ((forall j, 1 <= j -> j <= maxRetries -> poll_reports w cfg st pN j false) ->
     outcome r = Ret (Some timeoutErr) /\
     events r = EvGet ns pN :: EvPterm pInfo (existsLine pN) :: poll_rounds cfg pN 0 maxRetries /\
     count is_get (events r) = 1 + maxRetries /\
     count is_attach (events r) = 0 /\
     tail (get_times 0 (events r)) = [0; 5; 10; 15; 20; 25] /\
     spaced pollInterval (tail (get_times 0 (events r)))).
Proof.
  intros Hcopy Hget pN r. subst r.
  rewrite (debugPod_copy_exists _ _ Hcopy Hget). fold pN. cbv zeta.
  split.
  - intros n Hn1 Hn6 Hwait Hrun.
    destruct n as [|k]; [lia|].
    destruct (pollLoop_attaches k maxRetries 0 {| gets := S (gets st) |} pN)
      as (Ha & Hg & Ht & Hp).
    + lia.
    + intros j Hj. apply poll_answer_shift, poll_reports_answer, Hwait; lia.
    + apply poll_answer_shift, poll_reports_answer, Hrun.
    + remember (pollLoop _ _ _ _ _ _) as r. cbn. rewrite Ha, Hg.
      repeat split; assumption.
  - intros Hwait.
    rewrite pollLoop_times_out.
    + cbn -[poll_rounds maxRetries]. rewrite poll_rounds_gets, poll_rounds_no_attach.
      repeat split; first [reflexivity | cbn; lia].
    + intros j Hj. apply poll_answer_shift, poll_reports_answer, Hwait; lia.
Qed.

(** The bound of C3 is not tight: a container first seen running at the
    sixth poll is attached to as well. *)
Lemma debugPod_attach_at_last_poll podName st :
  CopyPod cfg = true ->
  (pods_Get w (gets st) ns (debuggerContainerName podName)).2 = None ->
  let pN := debuggerContainerName podName in
  let r := debugPod w cfg podName st in
  (forall j, 1 <= j -> j < maxRetries -> poll_answer w cfg st pN j false) ->
  poll_answer w cfg st pN maxRetries true ->
  count is_attach (events r) = 1 /\ outcome r <> Ret (Some timeoutErr).
Proof.
  intros Hcopy Hget pN r Hwait Hrun. subst r.
  rewrite (debugPod_copy_exists _ _ Hcopy Hget). fold pN. cbv zeta.
  destruct (pollLoop_attaches 5 maxRetries 0 {| gets := S (gets st) |} pN)
    as (Ha & _ & Ht & _).
  - unfold maxRetries. lia.
  - intros j Hj. apply poll_answer_shift, Hwait; unfold maxRetries; lia.
  - apply poll_answer_shift, Hrun.
  - remember (pollLoop _ _ _ _ _ _) as r. cbn. rewrite Ha.
    split; [reflexivity | assumption].
Qed.

(** *** Nothing below Debug asks the user to choose *)

Lemma pollLoop_no_select pN left : forall i st,
  count is_select (events (pollLoop w cfg pN left i st)) = 0.
Proof.
  induction left as [|left IH]; intros i st; [reflexivity|].
  cbn [pollLoop]. prim_unfold. cbn -[attachToExistingDebugContainer].
  destruct (pods_Get w (gets st) ns pN) as [[p|] [e|]];
    cbn -[attachToExistingDebugContainer]; try reflexivity.
  destruct (debuggerRunning (ContainerStatuses p)).
  - pose proof (attach_no_select pN {| gets := S (gets st) |}) as H.
    destruct (attachToExistingDebugContainer w cfg pN _) as [[o t] s]. exact H.
  - specialize (IH (i + 1) {| gets := S (gets st) |}).
    destruct (pollLoop w cfg pN left (i + 1) _) as [[o t] s]. exact IH.
Qed.

Lemma debugPod_no_select podName st :
  count is_select (events (debugPod w cfg podName st)) = 0.
Proof.
  unfold debugPod. prim_unfold.
  destruct (CopyPod cfg) eqn:Hcopy.
  - cbn -[createDebugPod pollLoop maxRetries].
    destruct (pods_Get w (gets st) ns _) as [x [e|]].
    + destruct (err_not_found e); cbn -[createDebugPod]; [|reflexivity].
      pose proof (create_no_select podName {| gets := S (gets st) |}) as H.
      destruct (createDebugPod w cfg podName _) as [[o t] s]. exact H.
    + pose proof (pollLoop_no_select (debuggerContainerName podName) maxRetries 0
                    {| gets := S (gets st) |}) as H.
      destruct (pollLoop w cfg _ maxRetries 0 _) as [[o t] s]. exact H.
  - cbn -[createDebugPod].
    destruct (pods_Get w (gets st) ns podName) as [[p|] [e|]];
      cbn -[createDebugPod]; try reflexivity.
    pose proof (create_no_select podName {| gets := S (gets st) |}) as H.
    destruct (length (EphemeralContainers p));
      cbn -[createDebugPod];
      destruct (createDebugPod w cfg podName _) as [[o t] s]; exact H.
Qed.

(** *** getPodsForWorkload *)

Lemma getPods_primary_nonempty st pl err :
  pods_List w ns (primarySelector cfg) = (Some pl, err) ->
  Items pl <> [] ->
  getPodsForWorkload w cfg st =
    (Ret (lookup_answer (Some pl, err)),
     [EvPterm pInfo ("Fetching workload..." +:+ nl); EvList ns (primarySelector cfg)],
     st).
Proof.
  intros Hp Hne. unfold getPodsForWorkload. prim_unfold. rewrite Hp. cbn -[primarySelector fallbackSelector].
  destruct (Items pl) as [|p ps]; [congruence|]. cbn.
  destruct err; reflexivity.
Qed.

Lemma getPods_primary_empty st pl err :
  pods_List w ns (primarySelector cfg) = (Some pl, err) ->
  Items pl = [] ->
  getPodsForWorkload w cfg st =
    (Ret (lookup_answer (pods_List w ns (fallbackSelector cfg))),
     [EvPterm pInfo ("Fetching workload..." +:+ nl);
      EvList ns (primarySelector cfg); EvList ns (fallbackSelector cfg)],
     st).
Proof.
  intros Hp He. unfold getPodsForWorkload. prim_unfold. rewrite Hp. cbn -[primarySelector fallbackSelector].
  rewrite He. cbn -[primarySelector fallbackSelector].
  destruct (pods_List w ns (fallbackSelector cfg)) as [x [e|]]; reflexivity.
Qed.

Lemma getPods_primary_nil st err :
  pods_List w ns (primarySelector cfg) = (None, err) ->
  getPodsForWorkload w cfg st =
    (Panic,
     [EvPterm pInfo ("Fetching workload..." +:+ nl); EvList ns (primarySelector cfg)],
     st).
Proof.
  intros Hp. unfold getPodsForWorkload. prim_unfold. rewrite Hp. reflexivity.
Qed.

Lemma selectors_differ : String.eqb (primarySelector cfg) (fallbackSelector cfg) = false.
Proof. reflexivity. Qed.

(** The fallback selector is queried exactly when the list that came back
    from the primary query has no items, whether or not the primary query
    also reported an error. *)
Lemma fallback_queried_iff st :
  0 < count (is_list_of (fallbackSelector cfg)) (events (getPodsForWorkload w cfg st)) <->
  exists pl err, pods_List w ns (primarySelector cfg) = (Some pl, err) /\ Items pl = [].
Proof.
  destruct (pods_List w ns (primarySelector cfg)) as [[pl|] err] eqn:Hp.
  - destruct (Items pl) as [|p ps] eqn:Hi.
    + rewrite (getPods_primary_empty st pl err Hp Hi). cbn -[primarySelector fallbackSelector String.eqb].
      rewrite selectors_differ, String.eqb_refl. cbn. split; [|lia].
      intros _. exists pl, err. split; [reflexivity | exact Hi].
    + rewrite (getPods_primary_nonempty st pl err Hp) by (rewrite Hi; discriminate).
      cbn -[primarySelector fallbackSelector String.eqb]. rewrite selectors_differ. cbn.
      split; [lia|].
      intros (pl' & err' & Heq & He). injection Heq as <- <-. congruence.
  - rewrite (getPods_primary_nil st err Hp).
    cbn -[primarySelector fallbackSelector String.eqb]. rewrite selectors_differ. cbn.
    split; [lia|]. intros (pl' & err' & Heq & _). discriminate.
Qed.

Lemma getPods_no_select st :
  count is_select (events (getPodsForWorkload w cfg st)) = 0.
Proof.
  destruct (pods_List w ns (primarySelector cfg)) as [[pl|] err] eqn:Hp.
  - destruct (Items pl) as [|p ps] eqn:Hi.
    + rewrite (getPods_primary_empty st pl err Hp Hi). reflexivity.
    + rewrite (getPods_primary_nonempty st pl err Hp) by (rewrite Hi; discriminate).
      reflexivity.
  - rewrite (getPods_primary_nil st err Hp). reflexivity.
Qed.

(** *** Debug after a successful lookup *)

Lemma Debug_first_candidate st pl evs st1 p ps :
  getPodsForWorkload w cfg st = (Ret (Some pl, None), evs, st1) ->
  Items pl = p :: ps ->
  ByPod cfg = false ->
  Debug w cfg st =
    prepend evs (after_debugPod (pod_Name p) (debugPod w cfg (pod_Name p) st1)).
Proof.
  intros Hl Hi Hb. unfold Debug. unfold bind at 1. rewrite Hl.
  prim_unfold. cbn -[debugPod]. rewrite Hi, Hb. cbn -[debugPod].
  unfold prepend, after_debugPod.
  destruct (debugPod w cfg (pod_Name p) st1) as [[[[e|]|] t] s]; cbn;
    rewrite ?app_nil_r; reflexivity.
Qed.

Lemma Debug_selected st pl evs st1 p ps :
  getPodsForWorkload w cfg st = (Ret (Some pl, None), evs, st1) ->
  Items pl = p :: ps ->
  ByPod cfg = true ->
  Debug w cfg st =
    let names := map pod_Name (Items pl) in
    match select_Show w names with
    | (_, Some e) =>
        (Ret (Some e),
         evs ++ [EvSelect names;
                 EvPterm pError (Fmt.Sprintf ("Prompt failed: %v" +:+ nl) [Fmt.E_ e])],
         st1)
    | (chosen, None) =>
        prepend (evs ++ [EvSelect names])
          (after_debugPod chosen (debugPod w cfg chosen st1))
    end.
Proof.
  intros Hl Hi Hb. unfold Debug. unfold bind at 1. rewrite Hl.
  prim_unfold. cbn -[debugPod]. rewrite Hi, Hb. cbn -[debugPod].
  destruct (select_Show w (pod_Name p :: map pod_Name ps)) as [chosen [e|]];
    cbn -[debugPod]; [reflexivity|].
  unfold prepend, after_debugPod.
  destruct (debugPod w cfg chosen st1) as [[[[e|]|] t] s]; cbn;
    rewrite <- ?app_assoc; cbn; rewrite ?app_nil_r; reflexivity.
Qed.

Lemma Debug_no_candidate st pl evs st1 :
  getPodsForWorkload w cfg st = (Ret (Some pl, None), evs, st1) ->
  Items pl = [] ->
  Debug w cfg st = (Ret None, evs ++ [EvPterm pInfo ("No pods found." +:+ nl)], st1).
Proof.
  intros Hl Hi. unfold Debug. unfold bind at 1. rewrite Hl.
  prim_unfold. cbn. rewrite Hi. reflexivity.
Qed.

Lemma after_debugPod_select podName r :
  count is_select (events (after_debugPod podName r)) = count is_select (events r).
Proof.
  destruct r as [[[[e|]|] t] s]; cbn; try reflexivity.
  unfold events. cbn. rewrite count_app. cbn. lia.
Qed.

Lemma after_debugPod_returns_nil podName r :
  outcome r <> Panic -> outcome (after_debugPod podName r) = Ret None.
Proof. destruct r as [[[[e|]|] t] s]; cbn; congruence. Qed.

(** *** The claims about Debug *)

(** C7. When both the primary and the fallback selector answer an empty
    list, Debug returns nil and starts no process: it only prints that no
    pods were found. *)
Theorem Debug_no_pods st pl1 pl2 :
  pods_List w ns (primarySelector cfg) = (Some pl1, None) ->
  Items pl1 = [] ->
  pods_List w ns (fallbackSelector cfg) = (Some pl2, None) ->
  Items pl2 = [] ->
  let r := Debug w cfg st in
  outcome r = Ret None /\
  count is_launch (events r) = 0 /\
  events r =
    [EvPterm pInfo ("Fetching workload..." +:+ nl);
     EvList ns (primarySelector cfg); EvList ns (fallbackSelector cfg);
     EvPterm pInfo ("No pods found." +:+ nl)].
Proof.
  intros Hp Hi1 Hf Hi2 r. subst r.
  pose proof (getPods_primary_empty st pl1 None Hp Hi1) as Hl.
  rewrite Hf in Hl. unfold lookup_answer in Hl. cbn [fst snd] in Hl.
  rewrite (Debug_no_candidate st pl2 _ st Hl Hi2).
  repeat split.
Qed.

(** Whatever debugPod returns, Debug returns nil once a pod was chosen. *)
Lemma Debug_returns_nil_after_debugPod st pl evs st1 p ps e :
  getPodsForWorkload w cfg st = (Ret (Some pl, None), evs, st1) ->
  Items pl = p :: ps ->
  ByPod cfg = false ->
  outcome (debugPod w cfg (pod_Name p) st1) = Ret (Some e) ->
  outcome (Debug w cfg st) = Ret None.
Proof.
  intros Hl Hi Hb Hd. rewrite (Debug_first_candidate st pl evs st1 p ps Hl Hi Hb).
  unfold prepend. cbn [outcome fst snd].
  apply after_debugPod_returns_nil. rewrite Hd. discriminate.
Qed.

(** C6, as the code has it.  After a successful lookup the choice is
    presented exactly when ByPod is set and there is at least one
    candidate, also when there is exactly one.  When ByPod is unset no
    choice is presented and debugPod runs on the first candidate in list
    order. *)
Theorem select_iff_ByPod st pl evs st1 :
  getPodsForWorkload w cfg st = (Ret (Some pl, None), evs, st1) ->
  let r := Debug w cfg st in
  (0 < count is_select (events r) <-> ByPod cfg = true /\ Items pl <> []) /\
  (ByPod cfg = false -> forall p ps, Items pl = p :: ps ->
     r = prepend evs (after_debugPod (pod_Name p) (debugPod w cfg (pod_Name p) st1))).
Proof.
  intros Hl r. subst r.
  assert (Hev : count is_select evs = 0).
  { pose proof (getPods_no_select st) as H. rewrite Hl in H. exact H. }
  split.
  - destruct (Items pl) as [|p ps] eqn:Hi.
    + rewrite (Debug_no_candidate st pl evs st1 Hl Hi).
      unfold events. cbn [fst snd]. rewrite count_app, Hev. cbn.
      split; [lia | intros [_ H]; congruence].
    + destruct (ByPod cfg) eqn:Hb.
      * rewrite (Debug_selected st pl evs st1 p ps Hl Hi Hb). cbv zeta.
        split; [intros _; split; [reflexivity | discriminate]|]. intros _.
        destruct (select_Show w _) as [chosen [e|]].
        -- unfold events. cbn [fst snd]. rewrite count_app, Hev. cbn. lia.
        -- unfold prepend. unfold events at 1. cbn [fst snd].
           rewrite !count_app, Hev. cbn. lia.
      * rewrite (Debug_first_candidate st pl evs st1 p ps Hl Hi Hb).
        unfold prepend. unfold events at 1. cbn [fst snd].
        rewrite count_app, Hev, after_debugPod_select, debugPod_no_select.
        split; [lia | intros [H _]; discriminate].
  - intros Hb p ps Hi. apply (Debug_first_candidate st pl evs st1 p ps Hl Hi Hb).
Qed.
End DebugFacts.

(** C1. The copy lookup fails with a fatal error: debugPod returns it, and
    Debug prints it and returns nil. *)
Theorem Debug_drops_debugPod_error :
  outcome (debugPod world_get_fails cfg_copy "app-1" st0) =
    Ret (Some (mkErr
      "failed to check for existing debug pod copy app-1-nais-debugger: connection refused"
      false)) /\
  outcome (Debug world_get_fails cfg_copy st0) = Ret None /\
  events (Debug world_get_fails cfg_copy st0) =
    [EvPterm pInfo ("Fetching workload..." +:+ nl);
     EvList "team" "app.kubernetes.io/name=app";
     EvGet "team" "app-1-nais-debugger";
     EvPterm pError
       ("Failed to debug pod app-1: failed to check for existing debug pod copy app-1-nais-debugger: connection refused" +:+ nl)].
Proof. vm_compute. repeat split. Qed.

(** C5. The primary query fails: the fallback selector is queried all the
    same, its answer replaces the error, and the lookup succeeds. *)
Theorem getPods_primary_error_falls_back :
  getPodsForWorkload world_primary_fails cfg_copy st0 =
    (Ret (Some {| Items := [pod1] |}, None),
     [EvPterm pInfo ("Fetching workload..." +:+ nl);
      EvList "team" "app.kubernetes.io/name=app";
      EvList "team" "app=app"],
     st0).
Proof. vm_compute. reflexivity. Qed.

Lemma Debug_no_pods_witness :
  outcome (Debug world_empty cfg_copy st0) = Ret None /\
  count is_launch (events (Debug world_empty cfg_copy st0)) = 0.
Proof.
  destruct (Debug_no_pods world_empty cfg_copy st0 {| Items := [] |} {| Items := [] |}
              eq_refl eq_refl eq_refl eq_refl) as (Ho & Hc & _).
  split; assumption.
Defined.

Lemma debugPod_attach_retry_witness :
  count is_attach (events (debugPod (world_copy_app 3) cfg_copy "app-1" st0)) = 1 /\
  outcome (debugPod (world_copy_app 7) cfg_copy "app-1" st0) = Ret (Some timeoutErr).
Proof.
  assert (Hpending : forall j from, j < from ->
            poll_reports (world_copy_app from) cfg_copy st0 "app-1-nais-debugger" j false).
  { intros j from Hj. eexists. split; [reflexivity|].
    cbn [gets st0 Nat.add]. apply Nat.leb_gt in Hj. rewrite Hj.
    intros c [<- | [<- | []]]; cbn; [discriminate | reflexivity]. }
  split.
  - destruct (debugPod_attach_retry (world_copy_app 3) cfg_copy "app-1" st0 eq_refl eq_refl)
      as [H _].
    destruct (H 3) as (Ha & _).
    + lia.
    + unfold maxRetries. lia.
    + intros j H1 H3. apply Hpending. lia.
    + eexists. split; [reflexivity|].
      exists {| cs_Name := "debugger"; cs_Running := true |}.
      split; [right; left; reflexivity | split; reflexivity].
    + exact Ha.
  - destruct (debugPod_attach_retry (world_copy_app 7) cfg_copy "app-1" st0 eq_refl eq_refl)
      as [_ H].
    destruct H as (Ho & _); [|exact Ho].
    intros j H1 H6. apply Hpending. unfold maxRetries in H6. lia.
Defined.

(** C6 as stated fails: with ByPod set and a single candidate the choice
    is still presented. *)
Lemma select_shown_for_single_candidate :
  ~ (forall w cfg st pl evs st1,
       getPodsForWorkload w cfg st = (Ret (Some pl, None), evs, st1) ->
       0 < count is_select (events (Debug w cfg st)) ->
       ByPod cfg = true /\ 1 < length (Items pl)).
Proof.
  intros H.
  assert (Hl : getPodsForWorkload (world_copy 0) cfg_bypod st0 =
               (Ret (Some {| Items := [pod1] |}, None),
                [EvPterm pInfo ("Fetching workload..." +:+ nl);
                 EvList "team" "app.kubernetes.io/name=app"], st0)) by reflexivity.
  specialize (H _ _ _ _ _ _ Hl).
  assert (Hc : count is_select (events (Debug (world_copy 0) cfg_bypod st0)) = 1)
    by (vm_compute; reflexivity).
  rewrite Hc in H. destruct H as [_ H]; [lia|]. cbn in H. lia.
Qed.

Lemma select_iff_ByPod_witness :
  0 < count is_select (events (Debug (world_copy 0) cfg_bypod st0)).
Proof.
  assert (Hl : getPodsForWorkload (world_copy 0) cfg_bypod st0 =
               (Ret (Some {| Items := [pod1] |}, None),
                [EvPterm pInfo ("Fetching workload..." +:+ nl);
                 EvList "team" "app.kubernetes.io/name=app"], st0)) by reflexivity.
  destruct (select_iff_ByPod (world_copy 0) cfg_bypod st0 _ _ _ Hl) as [[_ H] _].
  apply H. split; [reflexivity | discriminate].
Defined.

End DebugProps.

(** ** Properties of package migrate *)

Module MigrateProps.
Import Migrate.

Ltac mig_unfold :=
  unfold fmt_Print, fmt_Println, fmt_Printf, get_cfg, client_List, Target_Resolve,
    Source_Resolve, m_LookupGcpProjectId, printConfig, confirmContinue, time_Sleep,
    bind, emit, ret, outcome, events, final in *.

Ltac case_step :=
  match goal with
  | |- context [match ?x with _ => _ end] =>
      lazymatch x with
      | context [match _ with _ => _ end] => fail
      | _ => destruct x eqn:?
      end
  end.

Lemma count_events_app p (l1 l2 : list Event) :
  count p (l1 ++ l2) = count p l1 + count p l2.
Proof. induction l1 as [|e l1 IH]; cbn; [reflexivity|]. rewrite IH. lia. Qed.

Section MigrateFacts.
Variable w : World.

(** *** The progress loop *)

(** The rounds always run to the end, emit one status update each, and
    touch neither the cluster nor the config. *)
Lemma spinnerRounds_run left : forall i prevLog,
  exists evs,
    (forall st, spinnerRounds w left i prevLog st = (Ret tt, evs, st)) /\
    count is_update evs = left /\
    count is_create evs = 0 /\
    count is_confirm evs = 0 /\
    count is_resolve evs = 0.
Proof.
  induction left as [|left IH]; intros i prevLog.
  - exists []. repeat split.
  - destruct (IH (i + 1) (stillRunning (IntnRange 5 10 (draw_delay w i))))
      as (evs & Hrun & Hu & Hc & Hf & Hr).
    eexists. split; [|repeat split].
    + intros st. cbn [spinnerRounds]. mig_unfold. rewrite Hrun. reflexivity.
    + cbn. rewrite Hu. reflexivity.
    + cbn. exact Hc.
    + cbn. exact Hf.
    + cbn. exact Hr.
Qed.

Lemma doSpinner_spinner_fails e st :
  spinner_Start w = Some e ->
  doSpinner w st =
    (Ret (Some (Fmt.Errorf_w "failed to start spinner: %w" e)),
     [EvLog LInfo "Migration setup has started"; EvSpinnerStart "Setting up migration"],
     st).
Proof. intros H. unfold doSpinner. rewrite H. reflexivity. Qed.

Lemma doSpinner_multi_fails e st :
  spinner_Start w = None ->
  multi_Start w = Some e ->
  doSpinner w st =
    (Ret (Some (Fmt.Errorf_w "failed to start multi printer: %w" e)),
     [EvLog LInfo "Migration setup has started"; EvSpinnerStart "Setting up migration";
      EvMultiStart],
     st).
Proof. intros H1 H2. unfold doSpinner. rewrite H1, H2. reflexivity. Qed.

Lemma doSpinner_completes :
  spinner_Start w = None ->
  multi_Start w = None ->
  exists evs,
    (forall st,
       doSpinner w st =
         (Ret None,
          EvLog LInfo "Migration setup has started"
            :: EvSpinnerStart "Setting up migration" :: EvMultiStart
            :: evs ++ [EvSpinnerSuccess "Migration setup complete"; EvMultiStop],
          st)) /\
    count is_update evs = 50 /\
    count is_create evs = 0 /\
    count is_confirm evs = 0 /\
    count is_resolve evs = 0.
Proof.
  intros H1 H2.
  destruct (spinnerRounds_run 50 0 "") as (evs & Hrun & Hu & Hc & Hf & Hr).
  exists evs. split; [|repeat split; assumption].
  intros st. unfold doSpinner. rewrite H1, H2. mig_unfold. rewrite Hrun. reflexivity.
Qed.

(** doSpinner returns, always, and leaves the state alone. *)
Lemma doSpinner_returns st :
  exists err evs,
    doSpinner w st = (Ret err, evs, st) /\
    count is_create evs = 0 /\ count is_confirm evs = 0 /\ count is_resolve evs = 0.
Proof.
  destruct (spinner_Start w) as [e|] eqn:H1.
  - eexists _, _. split; [apply (doSpinner_spinner_fails e st H1)|]. repeat split.
  - destruct (multi_Start w) as [e|] eqn:H2.
    + eexists _, _. split; [apply (doSpinner_multi_fails e st H1 H2)|]. repeat split.
    + destruct (doSpinner_completes H1 H2) as (evs & Hrun & Hu & Hc & Hf & Hr).
      eexists _, _. split; [apply Hrun|].
      cbn. rewrite !count_events_app, Hc, Hf, Hr. repeat split.
Qed.

(** C9. Setup leaves the cluster as it found it and never calls Create:
    it lists the marker ConfigMaps, resolves the two instance configs and
    looks up the project id, which are reads. *)
Theorem Setup_reads_only wait st :
  let r := Setup w wait st in
  cluster (final r) = cluster st /\ count is_create (events r) = 0.
Proof.
  cbv zeta. unfold Setup. mig_unfold.
  repeat (cbn -[doSpinner Fmt.Sprintf]; try case_step); try (split; reflexivity).
  all: match goal with
       | H : doSpinner w ?s = _ |- _ =>
           destruct (doSpinner_returns s) as (err & evs & Hrun & Hc & _);
           rewrite Hrun in H; injection H as ? ? ?; subst
       end.
  all: try discriminate.
  all: split; [reflexivity | rewrite ?count_events_app, Hc; reflexivity].
Qed.

(** *** The marker check *)

Lemma selects_marker c o :
  is_marker c o -> selects (Namespace c) (markerLabels c) o = true.
Proof.
  intros (Hk & Hn & Hl). unfold selects, markerLabels.
  rewrite Hk, Hn, String.eqb_refl, orb_true_r.
  cbn. apply bool_decide_eq_true. apply map_singleton_subseteq_l. exact Hl.
Qed.

(** C2. A marker exists and the list request is answered: Setup returns
    the already-exists error after that one request.  No instance config
    is resolved and nothing else happens. *)
Theorem Setup_marker_exists wait st o :
  list_error w = None ->
  In o (cluster st) ->
  is_marker (cfg st) o ->
  let r := Setup w wait st in
  r = (Ret (Some errAlreadyExists),
       [EvClientList (Namespace (cfg st)) (markerLabels (cfg st))],
       st) /\
  count is_resolve (events r) = 0.
Proof.
  intros Hlist Hin Hm. cbv zeta.
  assert (Hr : Setup w wait st =
               (Ret (Some errAlreadyExists),
                [EvClientList (Namespace (cfg st)) (markerLabels (cfg st))], st)).
  { unfold Setup. mig_unfold. cbn -[doSpinner Fmt.Sprintf]. rewrite Hlist.
    destruct (List.filter _ (cluster st)) as [|x xs] eqn:Hf.
    - exfalso.
      assert (Hx : In o (List.filter (selects (Namespace (cfg st)) (markerLabels (cfg st)))
                           (cluster st))).
      { apply filter_In. split; [exact Hin | apply selects_marker, Hm]. }
      rewrite Hf in Hx. exact Hx.
    - reflexivity. }
  rewrite Hr. split; reflexivity.
Qed.

(** When the list request itself fails, its error is returned, again
    without any resolution. *)
Lemma Setup_list_fails wait st e :
  list_error w = Some e ->
  Setup w wait st =
    (Ret (Some e), [EvClientList (Namespace (cfg st)) (markerLabels (cfg st))], st).
Proof.
  intros Hlist. unfold Setup. mig_unfold. cbn -[doSpinner Fmt.Sprintf].
  rewrite Hlist. reflexivity.
Qed.

(** *** Resolution and validation *)

(** C4. After resolution the checks come in the order source name empty,
    target name empty, source equal to target.  Each stops Setup with an
    error of its own, before the project id is looked up and before the
    confirmation is asked.  In particular a source that resolves to the
    name of the target always stops Setup there. *)
Theorem Setup_validation_order wait st t s :
  reaches_validation w st t s ->
  let r := Setup w wait st in
  let stopped e :=
    r = (Ret (Some e), resolution_trace w (cfg st) t s,
         {| cluster := cluster st; cfg := resolved (cfg st) t s |}) in
  (InstanceName s = "" -> stopped errSourceEmpty) /\
  (InstanceName s <> "" -> InstanceName t = "" -> stopped errTargetRequired) /\
  (InstanceName s <> "" -> InstanceName t <> "" -> InstanceName s = InstanceName t ->
     stopped errSameInstance) /\
  (InstanceName s = InstanceName t -> exists e, stopped e) /\
  count is_confirm (resolution_trace w (cfg st) t s) = 0 /\
  errSourceEmpty <> errTargetRequired /\
  errSourceEmpty <> errSameInstance /\
  errTargetRequired <> errSameInstance.
Proof.
  intros (Hlist & Hnone & Ht & Hs). cbv zeta.
  assert (Hrun : forall e,
    (if String.eqb (InstanceName s) "" then Some errSourceEmpty
     else if String.eqb (InstanceName t) "" then Some errTargetRequired
     else if String.eqb (InstanceName s) (InstanceName t) then Some errSameInstance
     else None) = Some e ->
    Setup w wait st =
      (Ret (Some e), resolution_trace w (cfg st) t s,
       {| cluster := cluster st; cfg := resolved (cfg st) t s |})).
  { intros e He. unfold Setup. mig_unfold. cbn -[doSpinner Fmt.Sprintf].
    rewrite Hlist, Hnone. cbn -[doSpinner Fmt.Sprintf].
    rewrite Ht. cbn -[doSpinner Fmt.Sprintf].
    rewrite Hs. cbn -[doSpinner Fmt.Sprintf].
    destruct (String.eqb (InstanceName s) "");
      [injection He as <-; reflexivity|].
    destruct (String.eqb (InstanceName t) "");
      [injection He as <-; reflexivity|].
    destruct (String.eqb (InstanceName s) (InstanceName t));
      [injection He as <-; reflexivity | discriminate]. }
  repeat split; try discriminate.
  - intros He. apply Hrun. apply String.eqb_eq in He. rewrite He. reflexivity.
  - intros Hs0 He. apply Hrun.
    apply String.eqb_neq in Hs0. apply String.eqb_eq in He. rewrite Hs0, He. reflexivity.
  - intros Hs0 Ht0 He. apply Hrun.
    apply String.eqb_neq in Hs0. apply String.eqb_neq in Ht0. apply String.eqb_eq in He.
    rewrite Hs0, Ht0, He. reflexivity.
  - intros He. apply String.eqb_eq in He.
    destruct (String.eqb (InstanceName s) "") eqn:Hs0;
      [eexists; apply Hrun; rewrite ?Hs0; reflexivity|].
    destruct (String.eqb (InstanceName t) "") eqn:Ht0;
      [eexists; apply Hrun; rewrite ?Hs0, ?Ht0; reflexivity|].
    eexists. apply Hrun. rewrite ?Hs0, ?Ht0, ?He. reflexivity.
Qed.

(** *** After the confirmation *)

(** C10. Once the confirmation has been given Setup returns nil, whatever
    [wait] is.  When the spinner or the multi printer fails to start, the
    completion message is printed instead.  When both start, the loop runs
    its fifty rounds and then declares success. *)
Theorem Setup_nil_once_confirmed wait st :
  let r := Setup w wait st in
  In (EvConfirm true) (events r) ->
  outcome r = Ret None /\
  (wait = true -> spinner_Start w <> None \/ multi_Start w <> None ->
     exists args, last (events r) = Some (EvStdout (Fmt.Sprintf SetupSuccessMessage args))) /\
  (wait = true -> spinner_Start w = None -> multi_Start w = None ->
     count is_update (events r) = 50 /\
     In (EvSpinnerSuccess "Migration setup complete") (events r) /\
     last (events r) = Some EvMultiStop).
Proof.
  cbv zeta.
  assert (Hspin : exists err evs,
    (forall s, doSpinner w s = (Ret err, evs, s)) /\
    count is_confirm evs = 0 /\
    (err <> None <-> spinner_Start w <> None \/ multi_Start w <> None) /\
    (err = None ->
       count is_update evs = 50 /\
       In (EvSpinnerSuccess "Migration setup complete") evs /\
       last evs = Some EvMultiStop)).
  { destruct (spinner_Start w) as [e|] eqn:H1.
    - eexists _, _. split; [intros s; apply (doSpinner_spinner_fails e s H1)|].
      split; [reflexivity|]. split; [|discriminate].
      split; [intros _; left; discriminate | discriminate].
    - destruct (multi_Start w) as [e|] eqn:H2.
      + eexists _, _. split; [intros s; apply (doSpinner_multi_fails e s H1 H2)|].
        split; [reflexivity|]. split; [|discriminate].
        split; [intros _; right; discriminate | discriminate].
      + destruct (doSpinner_completes H1 H2) as (evs & Hrun & Hu & Hc & Hf & Hr).
        eexists _, _. split; [exact Hrun|].
        split; [cbn; rewrite count_events_app, Hf; reflexivity|].
        split; [split; [congruence | intros [H|H]; congruence]|].
        intros _. split; [cbn; rewrite count_events_app, Hu; reflexivity|].
        split.
        * right. right. right. apply in_or_app. right. left. reflexivity.
        * rewrite !app_comm_cons.
          change [EvSpinnerSuccess "Migration setup complete"; EvMultiStop]
            with ([EvSpinnerSuccess "Migration setup complete"] ++ [EvMultiStop]).
          rewrite app_assoc. apply last_snoc. }
  destruct Hspin as (err & evs & Hrun & Hconf & Herr & Hok).
  destruct wait; [destruct err as [e2|]|].
  - (* the progress display failed to start *)
    unfold Setup. mig_unfold.
    repeat (cbn -[doSpinner Fmt.Sprintf last]; first [rewrite Hrun | case_step]).
    all: cbn -[doSpinner Fmt.Sprintf last]; intros Hin.
    all: try solve [exfalso; intuition discriminate].
    split; [reflexivity|]. split.
    + intros _ _. eexists. rewrite !app_comm_cons. apply last_snoc.
    + intros _ H1 H2. exfalso.
      destruct (proj1 Herr ltac:(discriminate)) as [H|H]; congruence.
  - (* fifty rounds *)
    unfold Setup. mig_unfold.
    repeat (cbn -[doSpinner Fmt.Sprintf last]; first [rewrite Hrun | case_step]).
    all: cbn -[doSpinner Fmt.Sprintf last]; intros Hin.
    all: try solve [exfalso; intuition discriminate].
    split; [reflexivity|]. split.
    + intros _ H. apply Herr in H. congruence.
    + intros _ _ _. destruct (Hok eq_refl) as (Hu & Hs & Hl).
      rewrite !app_nil_r. split; [|split].
      * cbn. exact Hu.
      * repeat (first [exact Hs | right]).
      * rewrite !last_cons, Hl. reflexivity.
  - (* no wait *)
    unfold Setup. mig_unfold.
    repeat (cbn -[doSpinner Fmt.Sprintf last]; case_step).
    all: cbn -[doSpinner Fmt.Sprintf last]; intros Hin.
    all: try solve [exfalso; intuition discriminate].
    split; [reflexivity|]. split; intros; discriminate.
Qed.

(** *** The completion message *)

Lemma append_nil_r (s : string) : s +:+ "" = s.
Proof.
  induction s as [|a s IH]; [reflexivity|].
  change (String a (s +:+ "") = String a s). f_equal. exact IH.
Qed.

(** C8, as the code has it.  Without wait, after the confirmation, the
    last thing printed is the completion message: the log-tail command
    with the label selector and the namespace; the status-check command
    for the fixed job name jobName in the namespace; the console URL with
    the source and target instance names and the project id; and the
    promote command with the app name, the namespace and the target
    instance name. *)
Theorem Setup_completion_message st t s pid :
  reaches_confirmation w st t s pid ->
  confirmContinue_answer w = None ->
  let r := Setup w false st in
  let c := cfg st in
  let label := kubectlLabelSelector w (resolved c t s) (CommandSetup w) in
  let url := cloudConsoleUrl (InstanceName s) (InstanceName t) pid in
  outcome r = Ret None /\
  last (events r) = Some (EvStdout
    ("
Migration setup has been started successfully.

To monitor the migration, run the following command:
	kubectl logs -f -l " +:+ label +:+
     " -n " +:+ Namespace c +:+
     "

The setup will take some time to complete, you can check completion status with the following command:
	kubectl get job jobName -n " +:+ Namespace c +:+
     "

When setup is complete, a new instance has been created and replication of data has started.
You can check the replication progress in the Google Cloud Console:
	" +:+ url +:+
     "

When the migration has Status Running and is in the CDC or Ready to Promote phase,
you can proceed with the next step of the migration:
	nais postgres migrate promote " +:+ AppName c +:+ " " +:+ Namespace c +:+ " " +:+ InstanceName t +:+
     "

Be aware that during promotion (the next step), your instance will be unavailable for some time.
")) /\
  url = "https://console.cloud.google.com/dbmigration/migrations/locations/europe-north1/instances/"
        +:+ InstanceName s +:+ "-" +:+ InstanceName t +:+ "?project=" +:+ pid.
Proof.
  intros ((Hlist & Hnone & Ht & Hs) & Hs0 & Ht0 & Hst & Hpid) Hconf. cbv zeta.
  apply String.eqb_neq in Hs0, Ht0, Hst.
  unfold resolved in Hpid.
  assert (Hrun : Setup w false st =
    (Ret None,
     resolution_trace w (cfg st) t s ++
     [EvStdout ("Looking up GCP project ID" +:+ nl);
      EvLookupGcpProjectId;
      EvStdout (printConfig_text w (resolved (cfg st) t s));
      EvStdout creationNotice;
      EvConfirm true;
      EvStdout (Fmt.Sprintf SetupSuccessMessage
        [Fmt.S_ (kubectlLabelSelector w (resolved (cfg st) t s) (CommandSetup w));
         Fmt.S_ (Namespace (cfg st)); Fmt.S_ "jobName"; Fmt.S_ (Namespace (cfg st));
         Fmt.S_ (cloudConsoleUrl (InstanceName s) (InstanceName t) pid);
         Fmt.S_ (AppName (cfg st)); Fmt.S_ (Namespace (cfg st));
         Fmt.S_ (InstanceName t)])],
     {| cluster := cluster st; cfg := resolved (cfg st) t s |})).
  { unfold Setup. mig_unfold. cbn -[doSpinner Fmt.Sprintf].
    rewrite Hlist, Hnone. cbn -[doSpinner Fmt.Sprintf].
    rewrite Ht. cbn -[doSpinner Fmt.Sprintf].
    rewrite Hs. cbn -[doSpinner Fmt.Sprintf].
    rewrite Hs0, Ht0, Hst. cbn -[doSpinner Fmt.Sprintf].
    rewrite Hpid. cbn -[doSpinner Fmt.Sprintf].
    rewrite Hconf. reflexivity. }
  rewrite Hrun. split; [reflexivity|]. split; [reflexivity|].
  rewrite <- (append_nil_r pid) at 2. reflexivity.
Qed.
End MigrateFacts.

Lemma Setup_marker_exists_witness :
  outcome (Setup world_ok false state_marked) = Ret (Some errAlreadyExists) /\
  count is_resolve (events (Setup world_ok false state_marked)) = 0.
Proof.
  destruct (Setup_marker_exists world_ok false state_marked marker_of_app) as [Hr Hc].
  - reflexivity.
  - right. left. reflexivity.
  - repeat split.
  - rewrite Hr. split; reflexivity.
Defined.

Lemma Setup_validation_order_witness :
  outcome (Setup world_ok false state_same) = Ret (Some errSameInstance) /\
  count is_confirm (events (Setup world_ok false state_same)) = 0.
Proof.
  destruct (Setup_validation_order world_ok false state_same (inst "app-db") (inst "app-db"))
    as (_ & _ & Hsame & _ & Hc & _).
  - repeat split.
  - rewrite Hsame; [split; [reflexivity | exact Hc] | discriminate | discriminate | reflexivity].
Defined.

Lemma Setup_nil_once_confirmed_witness :
  outcome (Setup world_no_spinner true state_fresh) = Ret None.
Proof.
  destruct (Setup_nil_once_confirmed world_no_spinner true state_fresh) as (Hnil & _).
  - vm_compute. do 11 right. left. reflexivity.
  - exact Hnil.
Defined.

Lemma Setup_completion_message_witness :
  outcome (Setup world_ok false state_fresh) = Ret None.
Proof.
  destruct (Setup_completion_message world_ok state_fresh (inst "app-new") (inst "app-old")
              "proj-team") as (Hnil & _).
  - repeat split; discriminate.
  - reflexivity.
  - exact Hnil.
Defined.

(** C8 as stated fails.  The status-check command names the fixed text
    jobName, and no job, of that or any name, is in the cluster.  The promote
    command carries the app name, the namespace and the target instance
    name: whatever the cluster name, no line of the message is the promote
    command with app name, cluster and namespace. *)
Lemma completion_message_job_and_cluster :
  let r := Setup world_ok false state_fresh in
  exists msg,
    last (events r) = Some (EvStdout msg) /\
    In (tab +:+ "kubectl get job jobName -n team") (lines msg) /\
    List.filter is_job (cluster (final r)) = [] /\
    In (tab +:+ "nais postgres migrate promote app team app-new") (lines msg) /\
    forall clusterName,
      ~ In (tab +:+ "nais postgres migrate promote app " +:+ clusterName +:+ " team")
           (lines msg).
Proof.
  cbv zeta. eexists. split; [vm_compute; reflexivity|].
  split; [vm_compute; tauto|]. split; [reflexivity|]. split; [vm_compute; tauto|].
  intros clusterName H.
  match type of H with
  | In _ (lines ?m) =>
      let l := eval vm_compute in (lines m) in
      change (lines m) with l in H
  end.
  cbn in H.
  repeat (destruct H as [H|H]; [try discriminate H|]); [|exact H].
  repeat match type of H with String _ _ = String _ _ => injection H as H end.
  repeat (destruct clusterName as [|? clusterName]; cbn in H; [discriminate H|];
          injection H as _ H).
  destruct clusterName; discriminate H.
Qed.

End MigrateProps.

(** ** Further properties of package debug *)

Module DebugExtra.
Import Debug DebugMore DebugProps.

Lemma slept_app (l1 l2 : list Event) : slept (l1 ++ l2) = slept l1 + slept l2.
Proof.
  induction l1 as [|e l1 IH]; [reflexivity|].
  destruct e; cbn; rewrite IH; lia.
Qed.

Lemma length_append (s1 s2 : string) :
  String.length (s1 +:+ s2) = String.length s1 + String.length s2.
Proof.
  induction s1 as [|a s1 IH]; [reflexivity|].
  change (S (String.length (s1 +:+ s2)) = S (String.length s1 + String.length s2)).
  rewrite IH. reflexivity.
Qed.

Lemma append_inj_l (s : string) : forall s1 s2, s1 +:+ s = s2 +:+ s -> s1 = s2.
Proof.
  induction s1 as [|a s1 IH]; intros [|b s2] H.
  - reflexivity.
  - exfalso. apply (f_equal String.length) in H.
    rewrite !length_append in H. cbn [String.length] in H. lia.
  - exfalso. apply (f_equal String.length) in H.
    rewrite !length_append in H. cbn [String.length] in H. lia.
  - change (String a (s1 +:+ s) = String b (s2 +:+ s)) in H.
    injection H as -> H. f_equal. apply IH, H.
Qed.

(** X1. The name of the copy is the pod name followed by -nais-debugger,
    so two different pods never share a copy. *)
Theorem debuggerContainerName_injective podName1 podName2 :
  debuggerContainerName podName1 = podName1 +:+ "-nais-debugger" /\
  (debuggerContainerName podName1 = debuggerContainerName podName2 ->
   podName1 = podName2).
Proof.
  split; [reflexivity|].
  change (podName1 +:+ "-nais-debugger" = podName2 +:+ "-nais-debugger" ->
          podName1 = podName2).
  apply append_inj_l.
Qed.

Section DebugMoreFacts.
Variable w : World.
Variable cfg : Config.

Abbreviation ns := (Namespace cfg).

(** createDebugPod starts exactly one process, a kubectl debug, and does
    nothing else on the cluster. *)
Lemma create_shape podName st :
  let r := createDebugPod w cfg podName st in
  count is_launch (events r) = 1 /\
  count is_debug_launch (events r) = 1 /\
  count is_attach (events r) = 0 /\
  count is_get (events r) = 0 /\
  count is_warning (events r) = 0 /\
  slept (events r) = 0 /\
  outcome r <> Panic /\
  final r = st.
Proof. cbv zeta. go_unfold. split_cases; repeat split; try discriminate. Qed.

(** Without copy mode the one process is kubectl debug on the pod itself,
    with the workload's container as its target. *)
Lemma create_started podName st :
  CopyPod cfg = false ->
  started (events (createDebugPod w cfg podName st)) =
    [["kubectl"; "debug"; "-n"; Namespace cfg; "pod/" +:+ podName;
      "-it"; "--stdin"; "--tty"; "--profile=restricted"; "-q";
      "--image"; DebugImage cfg]
     ++ (if String.eqb (Context cfg) "" then [] else ["--context"; Context cfg])
     ++ ["--target"; WorkloadName cfg]].
Proof.
  intros Hcopy. go_unfold. rewrite Hcopy.
  destruct (String.eqb (Context cfg) ""); cbn;
    rewrite ?MigrateProps.append_nil_r; split_cases; reflexivity.
Qed.

Lemma attach_shape pN st :
  let r := attachToExistingDebugContainer w cfg pN st in
  count is_launch (events r) = 1 /\
  count is_debug_launch (events r) = 0 /\
  count is_get (events r) = 0 /\
  slept (events r) = 0 /\
  final r = st.
Proof. cbv zeta. go_unfold. split_cases; repeat split. Qed.

(** X2. Copy mode, the copy is not found: after the one lookup debugPod is
    createDebugPod.  One kubectl debug is started; nothing is polled or
    attached. *)
Theorem debugPod_copy_not_found podName st x e :
  CopyPod cfg = true ->
  pods_Get w (gets st) ns (debuggerContainerName podName) = (x, Some e) ->
  err_not_found e = true ->
  let r := debugPod w cfg podName st in
  r = prepend [EvGet ns (debuggerContainerName podName)]
        (createDebugPod w cfg podName {| gets := S (gets st) |}) /\
  count is_debug_launch (events r) = 1 /\
  count is_attach (events r) = 0 /\
  count is_get (events r) = 1 /\
  slept (events r) = 0.
Proof.
  intros Hcopy Hget Hnf. cbv zeta.
  assert (Hr : debugPod w cfg podName st =
               prepend [EvGet ns (debuggerContainerName podName)]
                 (createDebugPod w cfg podName {| gets := S (gets st) |})).
  { unfold debugPod. rewrite Hcopy. prim_unfold. rewrite Hget.
    cbn -[createDebugPod]. rewrite Hnf. cbn -[createDebugPod].
    unfold prepend. destruct (createDebugPod w cfg podName _) as [[o t] s]. reflexivity. }
  rewrite Hr. split; [reflexivity|].
  destruct (create_shape podName {| gets := S (gets st) |})
    as (_ & Hd & Ha & Hg & _ & Hs & _).
  unfold prepend, events at 1 3 5 7. cbn [fst snd].
  cbn [app count slept is_debug_launch is_attach is_get].
  rewrite Hd, Ha, Hg, Hs. repeat split.
Qed.

(** X3. Copy mode, the lookup of the copy fails otherwise: the error is
    returned with the name of the copy, and no process is started. *)
Theorem debugPod_copy_lookup_fatal podName st x e :
  CopyPod cfg = true ->
  pods_Get w (gets st) ns (debuggerContainerName podName) = (x, Some e) ->
  err_not_found e = false ->
  debugPod w cfg podName st =
    (Ret (Some (mkErr ("failed to check for existing debug pod copy "
                         +:+ debuggerContainerName podName +:+ ": " +:+ err_text e)
                  false)),
     [EvGet ns (debuggerContainerName podName)],
     {| gets := S (gets st) |}).
Proof.
  intros Hcopy Hget Hnf.
  unfold debugPod. rewrite Hcopy. prim_unfold. rewrite Hget.
  cbn -[createDebugPod debuggerContainerName]. rewrite Hnf.
  cbn -[createDebugPod debuggerContainerName].
  rewrite <- (MigrateProps.append_nil_r (err_text e)). reflexivity.
Qed.

(** X4. Without copy mode, once the pod is found, one process is started
    whatever the pod looks like, and it is kubectl debug on that pod: in the
    namespace of the config, on pod/<podName>, with the debug image, with
    --context when the config names one, and with the workload as --target.
    The warning about old debug containers is printed exactly when the pod
    has any, and changes nothing else. *)
Theorem debugPod_ephemeral podName st p :
  CopyPod cfg = false ->
  pods_Get w (gets st) ns podName = (Some p, None) ->
  let r := debugPod w cfg podName st in
  outcome r = outcome (createDebugPod w cfg podName {| gets := S (gets st) |}) /\
  started (events r) =
    [["kubectl"; "debug"; "-n"; Namespace cfg; "pod/" +:+ podName;
      "-it"; "--stdin"; "--tty"; "--profile=restricted"; "-q";
      "--image"; DebugImage cfg]
     ++ (if String.eqb (Context cfg) "" then [] else ["--context"; Context cfg])
     ++ ["--target"; WorkloadName cfg]] /\
  count is_debug_launch (events r) = 1 /\
  count is_attach (events r) = 0 /\
  count is_get (events r) = 1 /\
  count is_warning (events r) = match EphemeralContainers p with [] => 0 | _ => 1 end.
Proof.
  intros Hcopy Hget. cbv zeta.
  destruct (create_shape podName {| gets := S (gets st) |})
    as (_ & Hd & Ha & Hg & Hw & _).
  pose proof (create_started podName {| gets := S (gets st) |} Hcopy) as Hs.
  unfold debugPod. rewrite Hcopy. prim_unfold. rewrite Hget.
  cbn -[createDebugPod].
  destruct (EphemeralContainers p) as [|c cs]; cbn -[createDebugPod];
    destruct (createDebugPod w cfg podName _) as [[o t] s];
    unfold events, outcome in *; cbn [fst snd] in *;
    cbn [started count is_debug_launch is_attach is_get is_warning app];
    rewrite Hd, Ha, Hg, Hw, Hs; repeat split.
Qed.

(** X5. Without copy mode every failure to get the pod is fatal, a
    NotFound as well: the error is returned with the pod name and no process
    is started. *)
Theorem debugPod_ephemeral_lookup_fatal podName st x e :
  CopyPod cfg = false ->
  pods_Get w (gets st) ns podName = (x, Some e) ->
  debugPod w cfg podName st =
    (Ret (Some (mkErr ("failed to get pod " +:+ podName +:+ ": " +:+ err_text e) false)),
     [EvGet ns podName],
     {| gets := S (gets st) |}).
Proof.
  intros Hcopy Hget.
  unfold debugPod. rewrite Hcopy. prim_unfold. rewrite Hget.
  cbn -[createDebugPod].
  rewrite <- (MigrateProps.append_nil_r (err_text e)). reflexivity.
Qed.

(** X6. When the debug process has started and then ends with an error,
    createDebugPod returns nil exactly when the text of the error contains
    "exit status 1" (so also for exit status 137), and the wrapped error
    otherwise. *)
Theorem createDebugPod_exit_status podName st e :
  (forall argv, cmd_Start w argv = None) ->
  (forall argv, cmd_Wait w argv = Some e) ->
  let r := createDebugPod w cfg podName st in
  (outcome r = Ret None <-> Fmt.Contains (err_text e) "exit status 1" = true) /\
  (Fmt.Contains (err_text e) "exit status 1" = false ->
   outcome r = Ret (Some (mkErr ("debug command failed: " +:+ err_text e) false))).
Proof.
  intros Hstart Hwait. cbv zeta.
  unfold createDebugPod. prim_unfold. rewrite Hstart, Hwait.
  destruct (Fmt.Contains (err_text e) "exit status 1") eqn:Hc.
  - destruct (CopyPod cfg); cbn; (split; [split; reflexivity | discriminate]).
  - destruct (CopyPod cfg); cbn;
      (split; [split; discriminate
              | intros _; rewrite <- (MigrateProps.append_nil_r (err_text e)); reflexivity]).
Qed.

(** *** A lookup that fails during the poll *)

Lemma pollLoop_lookup_fails k : forall left i st pN x e,
  k < left ->
  (forall j, j < k -> poll_answer w cfg st pN j false) ->
  pods_Get w (gets st + k) ns pN = (x, Some e) ->
  let r := pollLoop w cfg pN left i st in
  outcome r =
    Ret (Some (Fmt.Errorf "failed to get debug pod copy %s: %v" [Fmt.S_ pN; Fmt.E_ e])) /\
  count is_launch (events r) = 0 /\
  count is_get (events r) = S k /\
  slept (events r) = k * pollInterval.
Proof.
  induction k as [|k IH]; intros left i st pN x e Hlt Hwait Hfail.
  - destruct left as [|left]; [lia|].
    replace (gets st + 0) with (gets st) in Hfail by lia.
    cbn [pollLoop]. prim_unfold. rewrite Hfail. cbn. repeat split.
  - destruct left as [|left]; [lia|].
    destruct (poll_answer_now w cfg st pN false (Hwait 0 ltac:(lia))) as (p & Hp & Hb).
    rewrite (pollLoop_waiting w cfg _ _ _ _ _ Hp Hb). cbv zeta.
    destruct (IH left (i + 1) {| gets := S (gets st) |} pN x e) as (Ho & Hl & Hg & Hs).
    + lia.
    + intros j Hj. apply poll_answer_shift, Hwait. lia.
    + cbn [gets]. rewrite <- Hfail. f_equal. lia.
    + remember (pollLoop _ _ _ _ _ _) as r. cbn -[pollInterval].
      rewrite Hl, Hg, Hs. repeat split; try exact Ho; unfold pollInterval; lia.
Qed.

(** X7. Copy mode, the copy exists, and after [k] polls that see it pending
    the next lookup fails: the error is returned at once, with the name of
    the copy; nothing is attached or started and no further poll is made. *)
Theorem debugPod_poll_lookup_fails podName st k x e :
  CopyPod cfg = true ->
  (pods_Get w (gets st) ns (debuggerContainerName podName)).2 = None ->
  let pN := debuggerContainerName podName in
  k < maxRetries ->
  (forall j, 1 <= j -> j <= k -> poll_answer w cfg st pN j false) ->
  pods_Get w (gets st + S k) ns pN = (x, Some e) ->
  let r := debugPod w cfg podName st in
  outcome r =
    Ret (Some (mkErr ("failed to get debug pod copy " +:+ pN +:+ ": " +:+ err_text e) false)) /\
  count is_launch (events r) = 0 /\
  count is_get (events r) = 2 + k /\
  slept (events r) = k * pollInterval.
Proof.
  intros Hcopy Hget pN Hk Hwait Hfail r. subst r.
  rewrite (debugPod_copy_exists w cfg _ _ Hcopy Hget). fold pN. cbv zeta.
  destruct (pollLoop_lookup_fails k maxRetries 0 {| gets := S (gets st) |} pN x e)
    as (Ho & Hl & Hg & Hs).
  - exact Hk.
  - intros j Hj. apply poll_answer_shift, Hwait; lia.
  - cbn [gets]. rewrite <- Hfail. f_equal. lia.
  - remember (pollLoop _ _ _ _ _ _) as r. cbn -[pollInterval].
    rewrite Hl, Hg, Hs. repeat split.
    rewrite Ho. unfold Fmt.Errorf.
    rewrite <- (MigrateProps.append_nil_r (err_text e)). reflexivity.
Qed.

(** *** Bounds that hold in every world *)

Lemma pollLoop_bounded pN left : forall i st,
  let r := pollLoop w cfg pN left i st in
  count is_get (events r) <= left /\
  count is_launch (events r) <= 1 /\
  slept (events r) <= left * pollInterval.
Proof.
  induction left as [|left IH]; intros i st; cbv zeta.
  - cbn. lia.
  - cbn [pollLoop]. prim_unfold. cbn -[attachToExistingDebugContainer pollInterval].
    destruct (pods_Get w (gets st) ns pN) as [[p|] [e|]];
      cbn -[attachToExistingDebugContainer pollInterval]; try lia.
    destruct (debuggerRunning (ContainerStatuses p)).
    + destruct (attach_shape pN {| gets := S (gets st) |}) as (Hl & _ & Hg & Hs & _).
      destruct (attachToExistingDebugContainer w cfg pN _) as [[o t] s].
      cbn -[pollInterval] in *. rewrite Hl, Hg, Hs. lia.
    + specialize (IH (i + 1) {| gets := S (gets st) |}). cbv zeta in IH.
      destruct (pollLoop w cfg pN left (i + 1) _) as [[o t] s].
      cbn -[pollInterval] in *. lia.
Qed.

Lemma debugPod_bounds podName st :
  let r := debugPod w cfg podName st in
  count is_get (events r) <= 1 + maxRetries /\
  slept (events r) <= maxRetries * pollInterval /\
  count is_launch (events r) <= 1.
Proof.
  cbv zeta. unfold debugPod. prim_unfold.
  destruct (CopyPod cfg) eqn:Hcopy.
  - cbn -[createDebugPod pollLoop maxRetries pollInterval].
    destruct (pods_Get w (gets st) ns _) as [x [e|]].
    + destruct (err_not_found e); cbn -[createDebugPod maxRetries pollInterval];
        [|unfold maxRetries, pollInterval; lia].
      destruct (create_shape podName {| gets := S (gets st) |})
        as (Hl & _ & _ & Hg & _ & Hs & _).
      destruct (createDebugPod w cfg podName _) as [[o t] s].
      cbn -[maxRetries pollInterval] in *. rewrite Hl, Hg, Hs.
      unfold maxRetries, pollInterval. lia.
    + pose proof (pollLoop_bounded (debuggerContainerName podName) maxRetries 0
                    {| gets := S (gets st) |}) as H. cbv zeta in H.
      destruct (pollLoop w cfg _ maxRetries 0 _) as [[o t] s].
      cbn -[maxRetries pollInterval] in *. lia.
  - cbn -[createDebugPod maxRetries pollInterval].
    destruct (create_shape podName {| gets := S (gets st) |})
      as (Hl & _ & _ & Hg & _ & Hs & _).
    destruct (pods_Get w (gets st) ns podName) as [[p|] [e|]];
      cbn -[createDebugPod maxRetries pollInterval];
      try (unfold maxRetries, pollInterval; lia).
    destruct (length (EphemeralContainers p));
      cbn -[createDebugPod maxRetries pollInterval];
      destruct (createDebugPod w cfg podName _) as [[o t] s];
      cbn -[maxRetries pollInterval] in *; rewrite Hl, Hg, Hs;
      unfold maxRetries, pollInterval; lia.
Qed.


(** *** Debug as a whole *)

Lemma attach_no_list pN st :
  count is_list (events (attachToExistingDebugContainer w cfg pN st)) = 0.
Proof. go_unfold. split_cases; reflexivity. Qed.

Lemma create_no_list podName st :
  count is_list (events (createDebugPod w cfg podName st)) = 0.
Proof. go_unfold. split_cases; reflexivity. Qed.

Lemma pollLoop_no_list pN left : forall i st,
  count is_list (events (pollLoop w cfg pN left i st)) = 0.
Proof.
  induction left as [|left IH]; intros i st; [reflexivity|].
  cbn [pollLoop]. prim_unfold. cbn -[attachToExistingDebugContainer].
  destruct (pods_Get w (gets st) ns pN) as [[p|] [e|]];
    cbn -[attachToExistingDebugContainer]; try reflexivity.
  destruct (debuggerRunning (ContainerStatuses p)).
  - pose proof (attach_no_list pN {| gets := S (gets st) |}) as H.
    destruct (attachToExistingDebugContainer w cfg pN _) as [[o t] s]. exact H.
  - specialize (IH (i + 1) {| gets := S (gets st) |}).
    destruct (pollLoop w cfg pN left (i + 1) _) as [[o t] s]. exact IH.
Qed.

Lemma debugPod_no_list podName st :
  count is_list (events (debugPod w cfg podName st)) = 0.
Proof.
  unfold debugPod. prim_unfold.
  destruct (CopyPod cfg) eqn:Hcopy.
  - cbn -[createDebugPod pollLoop maxRetries].
    destruct (pods_Get w (gets st) ns _) as [x [e|]].
    + destruct (err_not_found e); cbn -[createDebugPod]; [|reflexivity].
      pose proof (create_no_list podName {| gets := S (gets st) |}) as H.
      destruct (createDebugPod w cfg podName _) as [[o t] s]. exact H.
    + pose proof (pollLoop_no_list (debuggerContainerName podName) maxRetries 0
                    {| gets := S (gets st) |}) as H.
      destruct (pollLoop w cfg _ maxRetries 0 _) as [[o t] s]. exact H.
  - cbn -[createDebugPod].
    destruct (pods_Get w (gets st) ns podName) as [[p|] [e|]];
      cbn -[createDebugPod]; try reflexivity.
    pose proof (create_no_list podName {| gets := S (gets st) |}) as H.
    destruct (length (EphemeralContainers p));
      cbn -[createDebugPod];
      destruct (createDebugPod w cfg podName _) as [[o t] s]; exact H.
Qed.

Lemma after_debugPod_count p podName r :
  (forall l t, p (EvPterm l t) = false) ->
  count p (events (after_debugPod podName r)) = count p (events r).
Proof.
  intros Hp. destruct r as [[[[e|]|] t] s]; cbn; try reflexivity.
  unfold events. cbn. rewrite count_app. cbn. rewrite Hp. lia.
Qed.

Lemma after_debugPod_slept podName r :
  slept (events (after_debugPod podName r)) = slept (events r).
Proof.
  destruct r as [[[[e|]|] t] s]; cbn; try reflexivity.
  unfold events. cbn. rewrite slept_app. cbn. lia.
Qed.

(** A lookup that reports an error ends Debug with that error. *)
Lemma Debug_lookup_error st x e evs st1 :
  getPodsForWorkload w cfg st = (Ret (x, Some e), evs, st1) ->
  Debug w cfg st = (Ret (Some e), evs, st1).
Proof.
  intros Hl. unfold Debug. unfold bind at 1. rewrite Hl. cbn.
  rewrite app_nil_r. reflexivity.
Qed.

Lemma Debug_lookup_nil st evs st1 :
  getPodsForWorkload w cfg st = (Ret (None, None), evs, st1) ->
  Debug w cfg st = (Panic, evs, st1).
Proof.
  intros Hl. unfold Debug. unfold bind at 1. rewrite Hl. cbn.
  rewrite app_nil_r. reflexivity.
Qed.

Lemma Debug_lookup_panics st evs st1 :
  getPodsForWorkload w cfg st = (Panic, evs, st1) ->
  Debug w cfg st = (Panic, evs, st1).
Proof. intros Hl. unfold Debug. unfold bind at 1. rewrite Hl. reflexivity. Qed.

Lemma within_debugPod podName st :
  within (events (debugPod w cfg podName st)) 0 0 7 1 30.
Proof.
  destruct (debugPod_bounds podName st) as (Hg & Hs & Hl).
  unfold within. rewrite debugPod_no_list, debugPod_no_select.
  unfold maxRetries, pollInterval in *. lia.
Qed.

(** X8. In every world debugPod makes at most seven Get requests, sleeps at
    most thirty seconds in all, and starts at most one process. *)
Theorem debugPod_bounded podName st :
  let r := debugPod w cfg podName st in
  count is_get (events r) <= 1 + maxRetries /\
  slept (events r) <= maxRetries * pollInterval /\
  count is_launch (events r) <= 1.
Proof.
  cbv zeta. destruct (within_debugPod podName st) as (_ & _ & Hg & Hl & Hs).
  unfold maxRetries, pollInterval. lia.
Qed.

Lemma within_after st1 pre chosen n :
  within pre n 1 0 0 0 ->
  within (events (prepend pre (after_debugPod chosen (debugPod w cfg chosen st1)))) n 1 7 1 30.
Proof.
  intros (Hl & Hs & Hg & Hp & Hz).
  destruct (within_debugPod chosen st1) as (Dl & Ds & Dg & Dp & Dz).
  unfold within, prepend. unfold events at 1 3 5 7 9. cbn [fst snd].
  rewrite !count_app, slept_app, !after_debugPod_count, after_debugPod_slept
    by reflexivity.
  lia.
Qed.

Lemma Debug_found_within st pl evs st1 n :
  getPodsForWorkload w cfg st = (Ret (Some pl, None), evs, st1) ->
  within evs n 0 0 0 0 ->
  within (events (Debug w cfg st)) n 1 7 1 30.
Proof.
  intros Hl (Hli & Hse & Hge & Hla & Hsl).
  destruct (Items pl) as [|p ps] eqn:Hi.
  - rewrite (Debug_no_candidate w cfg st pl evs st1 Hl Hi).
    unfold within, events. cbn [fst snd]. rewrite !count_app, slept_app. cbn. lia.
  - destruct (ByPod cfg) eqn:Hb.
    + rewrite (Debug_selected w cfg st pl evs st1 p ps Hl Hi Hb). cbv zeta.
      destruct (select_Show w _) as [chosen [e|]].
      * unfold within, events. cbn [fst snd]. rewrite !count_app, slept_app. cbn. lia.
      * apply within_after. unfold within. rewrite !count_app, slept_app. cbn. lia.
    + rewrite (Debug_first_candidate w cfg st pl evs st1 p ps Hl Hi Hb).
      apply within_after. unfold within. lia.
Qed.

(** X9. In every world one run of Debug makes at most two List queries,
    shows the selection at most once, makes at most seven Get requests,
    starts at most one process and sleeps at most thirty seconds. *)
Theorem Debug_bounded st :
  let r := Debug w cfg st in
  count is_list (events r) <= 2 /\
  count is_select (events r) <= 1 /\
  count is_get (events r) <= 1 + maxRetries /\
  count is_launch (events r) <= 1 /\
  slept (events r) <= maxRetries * pollInterval.
Proof.
  cbv zeta. change (within (events (Debug w cfg st)) 2 1 7 1 30).
  assert (Hweak : forall evs l s g p z,
            within evs l s g p z -> l <= 2 -> s <= 1 -> g <= 7 -> p <= 1 -> z <= 30 ->
            within evs 2 1 7 1 30).
  { unfold within. intros. lia. }
  destruct (pods_List w ns (primarySelector cfg)) as [[pl|] err] eqn:Hp.
  - destruct (Items pl) as [|p ps] eqn:Hi.
    + pose proof (getPods_primary_empty w cfg st pl err Hp Hi) as Hl.
      destruct (pods_List w ns (fallbackSelector cfg)) as [x [e|]];
        unfold lookup_answer in Hl; cbn [fst snd] in Hl.
      * rewrite (Debug_lookup_error _ _ _ _ _ Hl). unfold within. cbn. lia.
      * destruct x as [pl2|].
        -- apply (Debug_found_within st pl2 _ st 2 Hl). unfold within. cbn. lia.
        -- rewrite (Debug_lookup_nil _ _ _ Hl). unfold within. cbn. lia.
    + assert (Hne : Items pl <> []) by (rewrite Hi; discriminate).
      pose proof (getPods_primary_nonempty w cfg st pl err Hp Hne) as Hl.
      destruct err as [e|]; unfold lookup_answer in Hl; cbn [fst snd] in Hl.
      * rewrite (Debug_lookup_error _ _ _ _ _ Hl). unfold within. cbn. lia.
      * apply (Hweak _ 1 1 7 1 30); try lia.
        apply (Debug_found_within st pl _ st 1 Hl). unfold within. cbn. lia.
  - pose proof (getPods_primary_nil w cfg st err Hp) as Hl.
    rewrite (Debug_lookup_panics _ _ _ Hl). unfold within. cbn. lia.
Qed.

(** X10. When the selection fails, Debug returns its error; it has not
    looked at any pod and has started nothing. *)
Theorem Debug_prompt_fails st pl evs st1 chosen e :
  getPodsForWorkload w cfg st = (Ret (Some pl, None), evs, st1) ->
  Items pl <> [] ->
  ByPod cfg = true ->
  select_Show w (map pod_Name (Items pl)) = (chosen, Some e) ->
  let r := Debug w cfg st in
  outcome r = Ret (Some e) /\
  count is_get (events r) = 0 /\
  count is_launch (events r) = 0.
Proof.
  intros Hl Hne Hb Hsel. cbv zeta.
  destruct (Items pl) as [|p ps] eqn:Hi; [congruence|].
  rewrite (Debug_selected w cfg st pl evs st1 p ps Hl Hi Hb). cbv zeta.
  rewrite Hi. rewrite Hsel.
  assert (Hev : count is_get evs = 0 /\ count is_launch evs = 0).
  { assert (He : evs = events (getPodsForWorkload w cfg st)) by (rewrite Hl; reflexivity).
    rewrite He. clear.
    destruct (pods_List w ns (primarySelector cfg)) as [[pl|] err] eqn:Hp.
    - destruct (Items pl) as [|p ps] eqn:Hi.
      + rewrite (getPods_primary_empty w cfg st pl err Hp Hi). split; reflexivity.
      + rewrite (getPods_primary_nonempty w cfg st pl err Hp)
          by (rewrite Hi; discriminate).
        split; reflexivity.
    - rewrite (getPods_primary_nil w cfg st err Hp). split; reflexivity. }
  destruct Hev as [Hg Hla].
  unfold outcome, events. cbn [fst snd]. rewrite !count_app, Hg, Hla.
  repeat split.
Qed.

(** X11. No pod under the primary selector and a fallback query that
    fails: Debug returns the fallback error behind the words "failed to get
    pods: ", still NotFound if it was, after the two queries and nothing
    else. *)
Theorem Debug_fallback_fails st pl err1 x e :
  pods_List w ns (primarySelector cfg) = (Some pl, err1) ->
  Items pl = [] ->
  pods_List w ns (fallbackSelector cfg) = (x, Some e) ->
  Debug w cfg st =
    (Ret (Some (mkErr ("failed to get pods: " +:+ err_text e) (err_not_found e))),
     [EvPterm pInfo ("Fetching workload..." +:+ nl);
      EvList ns (primarySelector cfg); EvList ns (fallbackSelector cfg)],
     st).
Proof.
  intros Hp Hi Hf.
  pose proof (getPods_primary_empty w cfg st pl err1 Hp Hi) as Hl.
  rewrite Hf in Hl. unfold lookup_answer in Hl. cbn [fst snd] in Hl.
  rewrite (Debug_lookup_error _ _ _ _ _ Hl). unfold Fmt.Errorf_w.
  rewrite <- (MigrateProps.append_nil_r (err_text e)). reflexivity.
Qed.

(** X12. A primary query that answers a nil list makes Debug panic on
    len(podList.Items): the error that came with it is never looked at,
    and the fallback selector is not queried. *)
Theorem Debug_nil_list_panics st err :
  pods_List w ns (primarySelector cfg) = (None, err) ->
  Debug w cfg st =
    (Panic,
     [EvPterm pInfo ("Fetching workload..." +:+ nl); EvList ns (primarySelector cfg)],
     st).
Proof.
  intros Hp. apply Debug_lookup_panics. apply (getPods_primary_nil w cfg st err Hp).
Qed.
End DebugMoreFacts.

Lemma debugPod_copy_not_found_witness :
  count is_debug_launch (events (debugPod world_no_copy cfg_copy "app-1" st0)) = 1.
Proof.
  destruct (debugPod_copy_not_found world_no_copy cfg_copy "app-1" st0 None
              (mkErr "pods not found" true) eq_refl eq_refl eq_refl) as (_ & H & _).
  exact H.
Defined.

Lemma debugPod_copy_lookup_fatal_witness :
  outcome (debugPod world_get_fails cfg_copy "app-1" st0) =
    Ret (Some (mkErr
      "failed to check for existing debug pod copy app-1-nais-debugger: connection refused"
      false)).
Proof.
  rewrite (debugPod_copy_lookup_fatal world_get_fails cfg_copy "app-1" st0 None
             (mkErr "connection refused" false) eq_refl eq_refl eq_refl).
  reflexivity.
Defined.

Lemma debugPod_ephemeral_witness :
  started (events (debugPod (world_pod 2 None) cfg_plain "app-1" st0)) =
    [["kubectl"; "debug"; "-n"; "team"; "pod/app-1";
      "-it"; "--stdin"; "--tty"; "--profile=restricted"; "-q";
      "--image"; "debug:latest"; "--context"; "dev"; "--target"; "app"]] /\
  count is_warning (events (debugPod (world_pod 2 None) cfg_plain "app-1" st0)) = 1.
Proof.
  destruct (debugPod_ephemeral (world_pod 2 None) cfg_plain "app-1" st0 _ eq_refl eq_refl)
    as (_ & Hs & _ & _ & _ & H).
  split; [exact Hs | exact H].
Defined.

Lemma debugPod_ephemeral_lookup_fatal_witness :
  outcome (debugPod world_no_copy cfg_plain "app-1" st0) =
    Ret (Some (mkErr "failed to get pod app-1: pods not found" false)).
Proof.
  rewrite (debugPod_ephemeral_lookup_fatal world_no_copy cfg_plain "app-1" st0 None
             (mkErr "pods not found" true) eq_refl eq_refl).
  reflexivity.
Defined.

Lemma createDebugPod_exit_status_witness :
  outcome (createDebugPod (world_pod 0 (Some (mkErr "exit status 137" false)))
             cfg_plain "app-1" st0) = Ret None.
Proof.
  destruct (createDebugPod_exit_status
              (world_pod 0 (Some (mkErr "exit status 137" false))) cfg_plain "app-1" st0
              (mkErr "exit status 137" false)
              (fun _ => eq_refl) (fun _ => eq_refl)) as [[_ H] _].
  apply H. reflexivity.
Defined.

Lemma debugPod_poll_lookup_fails_witness :
  count is_get (events (debugPod (world_poll_fails 2) cfg_copy "app-1" st0)) = 4 /\
  count is_launch (events (debugPod (world_poll_fails 2) cfg_copy "app-1" st0)) = 0.
Proof.
  destruct (debugPod_poll_lookup_fails (world_poll_fails 2) cfg_copy "app-1" st0 2 None
              (mkErr "connection reset" false) eq_refl eq_refl) as (_ & Hl & Hg & _).
  - unfold maxRetries. lia.
  - intros j H1 H2. assert (Hj : j = 1 \/ j = 2) by lia.
    destruct Hj as [-> | ->]; eexists; split; reflexivity.
  - reflexivity.
  - split; assumption.
Defined.

Lemma Debug_prompt_fails_witness :
  outcome (Debug world_prompt_fails cfg_bypod st0) = Ret (Some (mkErr "interrupted" false)).
Proof.
  assert (Hl : getPodsForWorkload world_prompt_fails cfg_bypod st0 =
               (Ret (Some {| Items := [pod1] |}, None),
                [EvPterm pInfo ("Fetching workload..." +:+ nl);
                 EvList "team" "app.kubernetes.io/name=app"], st0)) by reflexivity.
  destruct (Debug_prompt_fails world_prompt_fails cfg_bypod st0 _ _ _ ""
              (mkErr "interrupted" false) Hl) as (H & _).
  - discriminate.
  - reflexivity.
  - reflexivity.
  - exact H.
Defined.

Lemma Debug_fallback_fails_witness :
  outcome (Debug world_fallback_fails cfg_copy st0) =
    Ret (Some (mkErr "failed to get pods: forbidden" false)).
Proof.
  rewrite (Debug_fallback_fails world_fallback_fails cfg_copy st0 {| Items := [] |} None
             (Some {| Items := [] |}) (mkErr "forbidden" false) eq_refl eq_refl eq_refl).
  reflexivity.
Defined.

Lemma Debug_nil_list_panics_witness :
  outcome (Debug world_nil_list cfg_copy st0) = Panic.
Proof.
  rewrite (Debug_nil_list_panics world_nil_list cfg_copy st0
             (Some (mkErr "boom" false)) eq_refl).
  reflexivity.
Defined.

End DebugExtra.

(** ** Further properties of package migrate *)

Module MigrateExtra.
Import Migrate MigrateMore MigrateProps.

Lemma slept_events_app (l1 l2 : list Event) : slept (l1 ++ l2) = slept l1 + slept l2.
Proof.
  induction l1 as [|e l1 IH]; [reflexivity|].
  destruct e; cbn; rewrite IH; lia.
Qed.

Lemma log_texts_app (l1 l2 : list Event) :
  log_texts (l1 ++ l2) = log_texts l1 ++ log_texts l2.
Proof.
  induction l1 as [|e l1 IH]; [reflexivity|].
  destruct e; cbn; rewrite IH; reflexivity.
Qed.

Lemma update_texts_app (l1 l2 : list Event) :
  update_texts (l1 ++ l2) = update_texts l1 ++ update_texts l2.
Proof.
  induction l1 as [|e l1 IH]; [reflexivity|].
  destruct e; cbn; rewrite IH; reflexivity.
Qed.

Lemma resolves_app (l1 l2 : list Event) :
  resolves (l1 ++ l2) = resolves l1 ++ resolves l2.
Proof.
  induction l1 as [|e l1 IH]; [reflexivity|].
  destruct e; cbn; rewrite IH; reflexivity.
Qed.

Lemma resolves_none (evs : list Event) : count is_resolve evs = 0 -> resolves evs = [].
Proof.
  induction evs as [|e evs IH]; [reflexivity|].
  destruct e; cbn; intros H; try (apply IH; exact H). discriminate.
Qed.

(** [rand.IntnRange] stays in its range. *)
Lemma IntnRange_bounds min max draw :
  min < max -> min <= IntnRange min max draw < max.
Proof.
  intros H. unfold IntnRange.
  pose proof (Nat.mod_upper_bound draw (max - min)). lia.
Qed.

(** The severity of a round is never Info: the draw is 1 or 2. *)
Lemma severity_not_info draw prevLog :
  is_info_log
    (EvLog (match IntnRange 1 3 draw with 1 => LWarn | 2 => LError | _ => LInfo end)
       prevLog) = false.
Proof.
  pose proof (IntnRange_bounds 1 3 draw ltac:(lia)) as H.
  destruct (IntnRange 1 3 draw) as [|[|[|n]]]; try reflexivity; lia.
Qed.

Section MigrateMoreFacts.
Variable w : World.

(** The rounds, in full. *)
Lemma spinnerRounds_trace left : forall i prevLog,
  exists evs,
    (forall st, spinnerRounds w left i prevLog st = (Ret tt, evs, st)) /\
    5 * left <= slept evs <= 9 * left /\
    log_texts evs = removelast (prevLog :: update_texts evs) /\
    length (update_texts evs) = left /\
    count is_info_log evs = 0.
Proof.
  induction left as [|left IH]; intros i prevLog.
  - exists []. repeat split; cbn; lia || reflexivity.
  - destruct (IH (i + 1) (stillRunning (IntnRange 5 10 (draw_delay w i))))
      as (evs & Hrun & Hs & Hl & Hu & Hi).
    pose proof (IntnRange_bounds 5 10 (draw_delay w i) ltac:(lia)) as Hd.
    eexists. split; [|split; [|split; [|split]]].
    + intros st. cbn [spinnerRounds]. mig_unfold. rewrite Hrun. reflexivity.
    + cbn [app slept]. lia.
    + cbn [app log_texts update_texts]. rewrite Hl. reflexivity.
    + cbn [app update_texts length]. rewrite Hu. reflexivity.
    + cbn [app count]. rewrite severity_not_info, Hi. reflexivity.
Qed.

(** X13. When the spinner and the multi printer start, doSpinner sleeps
    between 250 and 450 seconds in all, whatever is drawn: fifty sleeps of
    five to nine seconds. *)
Theorem doSpinner_sleeps st :
  spinner_Start w = None ->
  multi_Start w = None ->
  250 <= slept (events (doSpinner w st)) <= 450.
Proof.
  intros H1 H2.
  destruct (spinnerRounds_trace 50 0 "") as (evs & Hrun & Hs & _).
  unfold doSpinner. rewrite H1, H2. mig_unfold. rewrite Hrun.
  cbn [fst snd app slept]. rewrite slept_events_app. cbn [slept]. lia.
Qed.

(** X14. The log of the progress loop runs one message behind.  After the
    start line the first round logs the empty text, every later round logs
    the message of the round before it, and the fiftieth message is shown
    on the spinner but never logged.  No round logs at level Info. *)
Theorem doSpinner_log_lag st :
  spinner_Start w = None ->
  multi_Start w = None ->
  let evs := events (doSpinner w st) in
  log_texts evs = "Migration setup has started" :: removelast ("" :: update_texts evs) /\
  length (update_texts evs) = 50 /\
  count is_info_log evs = 1.
Proof.
  intros H1 H2. cbv zeta.
  destruct (spinnerRounds_trace 50 0 "") as (evs & Hrun & _ & Hl & Hu & Hi).
  unfold doSpinner. rewrite H1, H2. mig_unfold. rewrite Hrun.
  cbn [fst snd app log_texts update_texts count is_info_log].
  rewrite log_texts_app, update_texts_app, count_events_app, Hl, Hi.
  cbn [log_texts update_texts count is_info_log].
  rewrite !app_nil_r. split; [reflexivity|]. split; [exact Hu | reflexivity].
Qed.

(** *** The ways Setup stops early *)

(** X15. When the target cannot be resolved, Setup returns the error of
    the resolver as it is, and the source is never resolved. *)
Theorem Setup_target_resolve_fails wait st t e :
  unmarked w st ->
  Resolve w (Target (cfg st)) (cluster st) (AppName (cfg st)) (Namespace (cfg st))
    = (t, Some e) ->
  Setup w wait st =
    (Ret (Some e),
     [EvClientList (Namespace (cfg st)) (markerLabels (cfg st));
      EvStdout ("Resolving target instance config" +:+ nl);
      EvResolve RTarget],
     {| cluster := cluster st; cfg := resolved (cfg st) t (Source (cfg st)) |}).
Proof.
  intros (Hlist & Hnone) Ht.
  unfold Setup. mig_unfold. cbn -[doSpinner Fmt.Sprintf].
  rewrite Hlist, Hnone. cbn -[doSpinner Fmt.Sprintf].
  rewrite Ht. reflexivity.
Qed.

(** X16. When the source cannot be resolved, Setup returns the error of
    the resolver as it is.  The target has been resolved before, and neither
    the project lookup nor the confirmation follows. *)
Theorem Setup_source_resolve_fails wait st t s e :
  unmarked w st ->
  Resolve w (Target (cfg st)) (cluster st) (AppName (cfg st)) (Namespace (cfg st))
    = (t, None) ->
  Resolve w (Source (cfg st)) (cluster st) (AppName (cfg st)) (Namespace (cfg st))
    = (s, Some e) ->
  Setup w wait st =
    (Ret (Some e),
     [EvClientList (Namespace (cfg st)) (markerLabels (cfg st));
      EvStdout ("Resolving target instance config" +:+ nl);
      EvResolve RTarget;
      EvStdout (Fmt.Sprintf ("Resolved target:" +:+ nl +:+ "%s" +:+ nl)
                  [Fmt.S_ (InstanceConfig_String w t)]);
      EvStdout ("Resolving source instance config" +:+ nl);
      EvResolve RSource],
     {| cluster := cluster st; cfg := resolved (cfg st) t s |}).
Proof.
  intros (Hlist & Hnone) Ht Hs.
  unfold Setup. mig_unfold. cbn -[doSpinner Fmt.Sprintf].
  rewrite Hlist, Hnone. cbn -[doSpinner Fmt.Sprintf].
  rewrite Ht. cbn -[doSpinner Fmt.Sprintf].
  rewrite Hs. reflexivity.
Qed.

(** X17. When the project id cannot be found, Setup returns the error
    behind the words "failed to lookup GCP project ID: ", and stops before
    it prints the config or asks for confirmation. *)
Theorem Setup_lookup_fails wait st t s pid e :
  reaches_validation w st t s ->
  InstanceName s <> "" ->
  InstanceName t <> "" ->
  InstanceName s <> InstanceName t ->
  LookupGcpProjectId w (cluster st) (resolved (cfg st) t s) = (pid, Some e) ->
  Setup w wait st =
    (Ret (Some (mkErr ("failed to lookup GCP project ID: " +:+ err_text e)
                  (err_not_found e))),
     resolution_trace w (cfg st) t s ++
     [EvStdout ("Looking up GCP project ID" +:+ nl); EvLookupGcpProjectId],
     {| cluster := cluster st; cfg := resolved (cfg st) t s |}).
Proof.
  intros (Hlist & Hnone & Ht & Hs) Hs0 Ht0 Hst Hpid.
  apply String.eqb_neq in Hs0, Ht0, Hst. unfold resolved in Hpid.
  unfold Setup. mig_unfold. cbn -[doSpinner Fmt.Sprintf].
  rewrite Hlist, Hnone. cbn -[doSpinner Fmt.Sprintf].
  rewrite Ht. cbn -[doSpinner Fmt.Sprintf].
  rewrite Hs. cbn -[doSpinner Fmt.Sprintf].
  rewrite Hs0, Ht0, Hst. cbn -[doSpinner Fmt.Sprintf].
  rewrite Hpid. cbn -[doSpinner Fmt.Sprintf].
  unfold Fmt.Errorf_w.
  rewrite <- (append_nil_r (err_text e)). reflexivity.
Qed.

(** X18. When the user does not confirm, Setup returns the error of the
    confirmation as it is, with or without wait.  The refused confirmation
    is the last thing that happens: no spinner, no sleep, no completion
    message. *)
Theorem Setup_cancelled wait st t s pid e :
  reaches_confirmation w st t s pid ->
  confirmContinue_answer w = Some e ->
  Setup w wait st =
    (Ret (Some e),
     resolution_trace w (cfg st) t s ++
     [EvStdout ("Looking up GCP project ID" +:+ nl);
      EvLookupGcpProjectId;
      EvStdout (printConfig_text w (resolved (cfg st) t s));
      EvStdout creationNotice;
      EvConfirm false],
     {| cluster := cluster st; cfg := resolved (cfg st) t s |}).
Proof.
  intros ((Hlist & Hnone & Ht & Hs) & Hs0 & Ht0 & Hst & Hpid) Hconf.
  apply String.eqb_neq in Hs0, Ht0, Hst. unfold resolved in Hpid.
  unfold Setup. mig_unfold. cbn -[doSpinner Fmt.Sprintf].
  rewrite Hlist, Hnone. cbn -[doSpinner Fmt.Sprintf].
  rewrite Ht. cbn -[doSpinner Fmt.Sprintf].
  rewrite Hs. cbn -[doSpinner Fmt.Sprintf].
  rewrite Hs0, Ht0, Hst. cbn -[doSpinner Fmt.Sprintf].
  rewrite Hpid. cbn -[doSpinner Fmt.Sprintf].
  rewrite Hconf. reflexivity.
Qed.

(** *** What counts as a marker *)

Lemma selects_listed c o :
  selects (Namespace c) (markerLabels c) o = true <-> listed c o.
Proof.
  unfold selects, markerLabels, listed. split.
  - intros H.
    apply andb_prop in H as [H Hl]. apply andb_prop in H as [Hk Hn].
    split; [destruct (obj_Kind o); (reflexivity || discriminate)|].
    split.
    + apply orb_prop in Hn as [Hn | Hn]; [left | right]; apply String.eqb_eq, Hn.
    + apply bool_decide_eq_true in Hl. apply map_singleton_subseteq_l in Hl. exact Hl.
  - intros (Hk & Hn & Hl). rewrite Hk.
    assert (Hns : String.eqb (Namespace c) "" || String.eqb (obj_Namespace o) (Namespace c)
                  = true).
    { destruct Hn as [Hn | Hn]; rewrite Hn; [reflexivity|].
      rewrite String.eqb_refl. apply orb_true_r. }
    rewrite Hns. cbn. apply bool_decide_eq_true, map_singleton_subseteq_l, Hl.
Qed.

(** X19. What stops Setup is a ConfigMap that carries the app name under
    migrator.nais.io/app-name and is in the namespace of the config, or in
    any namespace when the config names none.  With only other objects in
    the cluster, markers of other apps or of other namespaces, Setup goes on
    to resolve the target; with one such ConfigMap it returns the
    already-exists error after the list request. *)
Theorem Setup_other_objects wait st :
  list_error w = None ->
  ((forall o, In o (cluster st) -> ~ listed (cfg st) o) ->
   hd_error (resolves (events (Setup w wait st))) = Some RTarget) /\
  (forall o, In o (cluster st) -> listed (cfg st) o ->
   Setup w wait st =
     (Ret (Some errAlreadyExists),
      [EvClientList (Namespace (cfg st)) (markerLabels (cfg st))],
      st)).
Proof.
  intros Hlist. split.
  - intros Hno.
    assert (Hnone : List.filter (selects (Namespace (cfg st)) (markerLabels (cfg st)))
                      (cluster st) = []).
    { destruct (List.filter _ (cluster st)) as [|x xs] eqn:Hf; [reflexivity|].
      exfalso.
      assert (Hx : In x (List.filter (selects (Namespace (cfg st)) (markerLabels (cfg st)))
                           (cluster st))) by (rewrite Hf; left; reflexivity).
      apply filter_In in Hx as [Hin Hsel].
      apply (Hno x Hin), selects_listed, Hsel. }
    unfold Setup. mig_unfold. cbn -[doSpinner Fmt.Sprintf].
    rewrite Hlist, Hnone.
    repeat (cbn -[doSpinner Fmt.Sprintf]; try case_step); reflexivity.
  - intros o Hin Hl.
    unfold Setup. mig_unfold. cbn -[doSpinner Fmt.Sprintf]. rewrite Hlist.
    destruct (List.filter _ (cluster st)) as [|x xs] eqn:Hf; [|reflexivity].
    exfalso.
    assert (Hx : In o (List.filter (selects (Namespace (cfg st)) (markerLabels (cfg st)))
                         (cluster st))).
    { apply filter_In. split; [exact Hin | apply selects_listed, Hl]. }
    rewrite Hf in Hx. exact Hx.
Qed.

(** X20. In every run of Setup the target is resolved before the source,
    each at most once, and the source only after the target. *)
Theorem Setup_resolve_order wait st :
  let rs := resolves (events (Setup w wait st)) in
  rs = [] \/ rs = [RTarget] \/ rs = [RTarget; RSource].
Proof.
  cbv zeta. unfold Setup. mig_unfold.
  repeat (cbn -[doSpinner Fmt.Sprintf]; try case_step);
    try (left; reflexivity); try (right; left; reflexivity);
    try (right; right; reflexivity).
  all: match goal with
       | H : doSpinner w ?s = _ |- _ =>
           destruct (doSpinner_returns w s) as (err & evs & Hrun & _ & _ & Hr);
           rewrite Hrun in H; injection H as ? ? ?; subst;
           apply resolves_none in Hr
       end.
  all: right; right; rewrite ?resolves_app, Hr; reflexivity.
Qed.
End MigrateMoreFacts.

Lemma doSpinner_sleeps_witness :
  250 <= slept (events (doSpinner world_ok state_fresh)) <= 450.
Proof. apply (doSpinner_sleeps world_ok state_fresh eq_refl eq_refl). Defined.

Lemma doSpinner_log_lag_witness :
  length (update_texts (events (doSpinner world_ok state_fresh))) = 50.
Proof.
  destruct (doSpinner_log_lag world_ok state_fresh eq_refl eq_refl) as (_ & H & _).
  exact H.
Defined.

Lemma Setup_target_resolve_fails_witness :
  outcome (Setup world_target_fails false state_fresh) =
    Ret (Some (mkErr "no such instance" true)).
Proof.
  rewrite (Setup_target_resolve_fails world_target_fails false state_fresh
             (inst "app-new") (mkErr "no such instance" true)
             (conj eq_refl eq_refl) eq_refl).
  reflexivity.
Defined.

Lemma Setup_source_resolve_fails_witness :
  outcome (Setup world_source_fails false state_fresh) =
    Ret (Some (mkErr "no sql instance" true)).
Proof.
  rewrite (Setup_source_resolve_fails world_source_fails false state_fresh
             (inst "app-new") (inst "") (mkErr "no sql instance" true)
             (conj eq_refl eq_refl) eq_refl eq_refl).
  reflexivity.
Defined.

Lemma Setup_lookup_fails_witness :
  outcome (Setup world_lookup_fails true state_fresh) =
    Ret (Some (mkErr "failed to lookup GCP project ID: namespace not found" true)).
Proof.
  rewrite (Setup_lookup_fails world_lookup_fails true state_fresh
             (inst "app-new") (inst "app-old") "" (mkErr "namespace not found" true)).
  - reflexivity.
  - repeat split.
  - discriminate.
  - discriminate.
  - discriminate.
  - reflexivity.
Defined.

Lemma Setup_cancelled_witness :
  outcome (Setup world_cancel true state_fresh) =
    Ret (Some (mkErr "cancelled by user" false)).
Proof.
  rewrite (Setup_cancelled world_cancel true state_fresh
             (inst "app-new") (inst "app-old") "proj-team"
             (mkErr "cancelled by user" false)).
  - reflexivity.
  - repeat split; discriminate.
  - reflexivity.
Defined.

Lemma Setup_other_objects_witness :
  hd_error (resolves (events (Setup world_ok false state_fresh))) = Some RTarget /\
  outcome (Setup world_ok false state_no_namespace) = Ret (Some errAlreadyExists).
Proof.
  split.
  - apply (Setup_other_objects world_ok false state_fresh eq_refl).
    intros o [<- | []] (_ & _ & Hl). vm_compute in Hl. discriminate Hl.
  - destruct (Setup_other_objects world_ok false state_no_namespace eq_refl) as [_ H].
    rewrite (H marker_of_app).
    + reflexivity.
    + right. left. reflexivity.
    + split; [reflexivity|]. split; [left; reflexivity | reflexivity].
Defined.

End MigrateExtra.

(** ** Properties of the prepare command *)

Module PostgresProps.
Import Postgres.

(** *** Strings *)

Lemma append_assoc (s1 s2 s3 : string) : (s1 +:+ s2) +:+ s3 = s1 +:+ s2 +:+ s3.
Proof.
  induction s1 as [|a s1 IH]; [reflexivity|].
  change (String a ((s1 +:+ s2) +:+ s3) = String a (s1 +:+ s2 +:+ s3)).
  rewrite IH. reflexivity.
Qed.

Lemma length_app (s1 s2 : string) :
  String.length (s1 +:+ s2) = String.length s1 + String.length s2.
Proof.
  induction s1 as [|a s1 IH]; [reflexivity|].
  change (S (String.length (s1 +:+ s2)) = S (String.length s1 + String.length s2)).
  rewrite IH. reflexivity.
Qed.

Lemma string_prefix_nil (s : string) : String.prefix "" s = true.
Proof. destruct s; reflexivity. Qed.

(** Whether [old] starts a text depends on its first [length old] bytes
    only. *)
Lemma prefix_app_l old : forall a b,
  String.length old <= String.length a ->
  String.prefix old (a +:+ b) = String.prefix old a.
Proof.
  induction old as [|o old IH]; intros a b Hlen.
  - rewrite !string_prefix_nil. reflexivity.
  - destruct a as [|x a]; [cbn in Hlen; lia|].
    change (String x a +:+ b) with (String x (a +:+ b)).
    cbn [String.prefix]. destruct (ascii_dec o x); [|reflexivity].
    apply IH. cbn in Hlen. lia.
Qed.

Lemma Contains_cons c s sub :
  Fmt.Contains (String c s) sub = String.prefix sub (String c s) || Fmt.Contains s sub.
Proof. reflexivity. Qed.

(** X21. A statement without the placeholder CHANGEME goes through
    setGrant unchanged. *)
Theorem setGrant_without_placeholder allPrivs : forall sql,
  Fmt.Contains sql "CHANGEME" = false -> setGrant sql allPrivs = sql.
Proof.
  unfold setGrant. set (grant := if allPrivs then "ALL" else "SELECT").
  induction sql as [|c s IH]; intros H.
  - reflexivity.
  - rewrite Contains_cons in H. apply orb_false_elim in H as [Hp Hc].
    change (Replace1 (String c s) "CHANGEME" grant)
      with (if String.prefix "CHANGEME" (String c s)
            then grant +:+ skip (String.length "CHANGEME") (String c s)
            else String c (Replace1 s "CHANGEME" grant)).
    rewrite Hp, (IH Hc). reflexivity.
Qed.

(** X22. setGrant puts the privilege, ALL or SELECT, in the place of the
    first CHANGEME and leaves the text before and after it as it is, later
    placeholders included. *)
Theorem setGrant_first_placeholder allPrivs post : forall pre,
  Fmt.Contains (pre +:+ "CHANGEM") "CHANGEME" = false ->
  setGrant (pre +:+ "CHANGEME" +:+ post) allPrivs =
    pre +:+ (if allPrivs then "ALL" else "SELECT") +:+ post.
Proof.
  unfold setGrant. induction pre as [|c pre IH]; intros H.
  - destruct post; destruct allPrivs; reflexivity.
  - change (String c pre +:+ "CHANGEM") with (String c (pre +:+ "CHANGEM")) in H.
    rewrite Contains_cons in H. apply orb_false_elim in H as [Hp Hc].
    change (String c pre +:+ "CHANGEME" +:+ post)
      with (String c (pre +:+ "CHANGEME" +:+ post)).
    set (full := String c (pre +:+ "CHANGEME" +:+ post)).
    change (Replace1 full "CHANGEME" (if allPrivs then "ALL" else "SELECT"))
      with (if String.prefix "CHANGEME" full
            then (if allPrivs then "ALL" else "SELECT")
                 +:+ skip (String.length "CHANGEME") full
            else String c (Replace1 (pre +:+ "CHANGEME" +:+ post) "CHANGEME"
                             (if allPrivs then "ALL" else "SELECT"))).
    subst full.
    assert (Hq : String.prefix "CHANGEME" (String c (pre +:+ "CHANGEME" +:+ post)) = false).
    { change ("CHANGEME" +:+ post) with ("CHANGEM" +:+ ("E" +:+ post)).
      rewrite <- (append_assoc pre "CHANGEM" ("E" +:+ post)).
      change (String c ((pre +:+ "CHANGEM") +:+ ("E" +:+ post)))
        with (String c (pre +:+ "CHANGEM") +:+ ("E" +:+ post)).
      rewrite prefix_app_l; [exact Hp|].
      cbn [String.length]. rewrite length_app. cbn. lia. }
    rewrite Hq, (IH Hc). reflexivity.
Qed.

(** *** getSecretDataValue *)

Lemma firstWithSuffix_unique suffix k v : forall entries,
  In (k, v) entries ->
  (forall k' v', In (k', v') entries -> HasSuffix k' suffix = true -> k' = k /\ v' = v) ->
  HasSuffix k suffix = true ->
  firstWithSuffix entries suffix = v.
Proof.
  induction entries as [|[k0 v0] entries IH]; intros Hin Huniq Hk; [destruct Hin|].
  cbn [firstWithSuffix]. destruct (HasSuffix k0 suffix) eqn:H0.
  - apply (Huniq k0 v0); [left; reflexivity | exact H0].
  - destruct Hin as [Heq | Hin]; [congruence|].
    apply IH; [exact Hin | | exact Hk].
    intros k' v' Hin'. apply Huniq. right. exact Hin'.
Qed.

Lemma firstWithSuffix_sound suffix : forall entries,
  (exists k, In (k, firstWithSuffix entries suffix) entries /\ HasSuffix k suffix = true) \/
  (firstWithSuffix entries suffix = "" /\
   forall k v, In (k, v) entries -> HasSuffix k suffix = false).
Proof.
  induction entries as [|[k0 v0] entries IH]; [right; split; [reflexivity | intros ? ? []]|].
  cbn [firstWithSuffix]. destruct (HasSuffix k0 suffix) eqn:H0.
  - left. exists k0. split; [left; reflexivity | exact H0].
  - destruct IH as [(k & Hin & Hk) | (He & Hnone)].
    + left. exists k. split; [right; exact Hin | exact Hk].
    + right. split; [exact He|].
      intros k v [Heq | Hin]; [congruence | apply (Hnone k v Hin)].
Qed.

Lemma range_lookup range m k v :
  visits_once range -> (In (k, v) (range m) <-> m !! k = Some v).
Proof.
  intros Hr. rewrite <- elem_of_map_to_list, <- list_elem_of_In.
  rewrite (Hr m). reflexivity.
Qed.

(** X23. When exactly one key of the secret ends in the suffix,
    getSecretDataValue returns the value under that key, in whatever order
    the map is visited. *)
Theorem getSecretDataValue_unique range secret suffix k v :
  visits_once range ->
  Data secret !! k = Some v ->
  HasSuffix k suffix = true ->
  (forall k', is_Some (Data secret !! k') -> HasSuffix k' suffix = true -> k' = k) ->
  getSecretDataValue range (Some secret) suffix = Ret v.
Proof.
  intros Hr Hk Hs Huniq. unfold getSecretDataValue. f_equal.
  apply (firstWithSuffix_unique suffix k v).
  - apply (range_lookup range _ k v Hr), Hk.
  - intros k' v' Hin Hs'. apply (range_lookup range _ k' v' Hr) in Hin.
    assert (k' = k) as -> by (apply Huniq; [exists v'; exact Hin | exact Hs']).
    split; [reflexivity | congruence].
  - exact Hs.
Qed.

(** X24. What getSecretDataValue returns is the value under some key that
    ends in the suffix; or it is the empty text, and no key of the secret
    ends in the suffix. *)
Theorem getSecretDataValue_sound range secret suffix :
  visits_once range ->
  exists v,
    getSecretDataValue range (Some secret) suffix = Ret v /\
    ((exists k, Data secret !! k = Some v /\ HasSuffix k suffix = true) \/
     (v = "" /\ forall k, is_Some (Data secret !! k) -> HasSuffix k suffix = false)).
Proof.
  intros Hr. eexists. split; [reflexivity|].
  destruct (firstWithSuffix_sound suffix (range (Data secret)))
    as [(k & Hin & Hk) | (He & Hnone)].
  - left. exists k. split; [apply (range_lookup range _ _ _ Hr), Hin | exact Hk].
  - right. split; [exact He|].
    intros k [v Hv]. apply (Hnone k v), (range_lookup range _ _ _ Hr), Hv.
Qed.

(** *** The confirmation *)







Lemma EqualFold_y x : EqualFold x "y" = true -> x = "y" \/ x = "Y".
Proof.
  destruct x as [|a [|b x]]; cbn [EqualFold]; try discriminate.
  - intros H. apply andb_prop in H as [H _].
    destruct a as [[] [] [] [] [] [] [] []]; vm_compute in H; try discriminate H;
      first [left; reflexivity | right; reflexivity].
  - rewrite andb_false_r. discriminate.
Qed.

Section PrepareFacts.
Variable w : World.

(** X26. Unless the answer, trimmed, is y or Y, RunE returns "cancelled
    by user" right after reading it: no connection is asked for, nothing is
    opened, no statement is sent. *)
Theorem RunE_not_confirmed appName rest :
  NewDBInfo w appName (flag_namespace w) (flag_context w) = None ->
  TrimSpace (stdin_Text w) <> "y" ->
  TrimSpace (stdin_Text w) <> "Y" ->
  RunE w (appName :: rest) tt =
    (Ret (Returned (Some (mkErr "cancelled by user" false))),
     [EvNewDBInfo appName (flag_namespace w) (flag_context w);
      EvStdout (prepareHelp +:+ nl);
      EvStdout (nl +:+ "Are you sure you want to continue (y/N): ");
      EvScan],
     tt).
Proof.
  intros Hdb Hy HY.
  assert (Hc : confirmed (stdin_Text w) = false).
  { destruct (confirmed (stdin_Text w)) eqn:Hc; [|reflexivity].
    apply EqualFold_y in Hc as [Hc | Hc]; congruence. }
  unfold RunE, bind, emit, ret. rewrite Hdb, Hc. reflexivity.
Qed.


(** *** The statements *)

(** The loop up to a statement that fails. *)
Lemma execAll_fails e : forall pre d post,
  (forall x, In x pre -> db_ExecContext w (setGrant x (flag_allPrivs w)) = None) ->
  db_ExecContext w (setGrant d (flag_allPrivs w)) = Some e ->
  execAll w (pre ++ d :: post) tt =
    (Ret (Exited 1),
     map (fun x => EvExec (setGrant x (flag_allPrivs w))) (pre ++ [d]) ++ [EvFatal e],
     tt).
Proof.
  induction pre as [|x pre IH]; intros d post Hpre Hd.
  - cbn [app execAll]. unfold bind, emit, ret, log_Fatal. rewrite Hd. reflexivity.
  - cbn [app execAll]. unfold bind, emit, ret.
    rewrite (Hpre x (or_introl eq_refl)).
    rewrite (IH d post); [reflexivity | | exact Hd].
    intros y Hy. apply Hpre. right. exact Hy.
Qed.

Lemma execAll_succeeds : forall ddls,
  (forall x, In x ddls -> db_ExecContext w (setGrant x (flag_allPrivs w)) = None) ->
  execAll w ddls tt =
    (Ret (Returned None),
     map (fun x => EvExec (setGrant x (flag_allPrivs w))) ddls ++ [EvClose],
     tt).
Proof.
  induction ddls as [|x ddls IH]; intros Hok; [reflexivity|].
  cbn [execAll]. unfold bind, emit, ret.
  rewrite (Hok x (or_introl eq_refl)).
  rewrite IH; [reflexivity|]. intros y Hy. apply Hok. right. exact Hy.
Qed.

Lemma execAll_queries : forall ddls,
  queries (events (execAll w ddls tt))
    `prefix_of` map (fun x => setGrant x (flag_allPrivs w)) ddls.
Proof.
  induction ddls as [|x ddls IH]; [exists []; reflexivity|].
  cbn [execAll]. unfold bind, emit, ret, log_Fatal.
  destruct (db_ExecContext w (setGrant x (flag_allPrivs w))).
  - cbn. apply prefix_cons, prefix_nil.
  - destruct (execAll w ddls tt) as [[o t] s]. cbn in *. apply prefix_cons, IH.
Qed.

Lemma RunE_statements appName rest connectionString :
  reaches_statements w appName connectionString ->
  RunE w (appName :: rest) tt =
    let r := execAll w ddlStatements tt in
    (outcome r,
     [EvNewDBInfo appName (flag_namespace w) (flag_context w);
      EvStdout (prepareHelp +:+ nl);
      EvStdout (nl +:+ "Are you sure you want to continue (y/N): ");
      EvScan; EvDBConnection; EvOpen "cloudsqlpostgres" connectionString] ++ events r,
     tt).
Proof.
  intros (Hdb & Hc & Hconn & Hopen).
  unfold RunE, bind, emit, ret. rewrite Hdb, Hc, Hconn, Hopen. cbn [negb].
  destruct (execAll w ddlStatements tt) as [[o t] []]. reflexivity.
Qed.

(** X27. The first statement that fails ends the process with status 1
    through log.Fatal: the statements after it are not sent, and the
    deferred Close of the database does not run. *)
Theorem RunE_first_failure appName rest connectionString pre d post e :
  reaches_statements w appName connectionString ->
  ddlStatements = pre ++ d :: post ->
  (forall x, In x pre -> db_ExecContext w (setGrant x (flag_allPrivs w)) = None) ->
  db_ExecContext w (setGrant d (flag_allPrivs w)) = Some e ->
  let r := RunE w (appName :: rest) tt in
  outcome r = Ret (Exited 1) /\
  queries (events r) = map (fun x => setGrant x (flag_allPrivs w)) (pre ++ [d]) /\
  last (events r) = Some (EvFatal e) /\
  existsb is_close (events r) = false.
Proof.
  intros Hreach Hddl Hpre Hd. cbv zeta.
  rewrite (RunE_statements appName rest connectionString Hreach). cbv zeta.
  rewrite Hddl, (execAll_fails e pre d post Hpre Hd).
  unfold outcome, events. cbn [fst snd app queries existsb is_close orb].
  split; [reflexivity|]. split; [|split].
  - induction (pre ++ [d]) as [|x l IH]; [reflexivity|].
    cbn [map app queries]. rewrite IH. reflexivity.
  - rewrite !app_comm_cons. apply last_snoc.
  - induction (pre ++ [d]) as [|x l IH]; [reflexivity|]. cbn. exact IH.
Qed.

(** X28. When every statement succeeds, RunE sends the four statements in
    the order of the table, each with the privilege in place, closes the
    database last and returns nil. *)
Theorem RunE_success appName rest connectionString :
  reaches_statements w appName connectionString ->
  (forall x, In x ddlStatements ->
     db_ExecContext w (setGrant x (flag_allPrivs w)) = None) ->
  let r := RunE w (appName :: rest) tt in
  let grant := if flag_allPrivs w then "ALL" else "SELECT" in
  outcome r = Ret (Returned None) /\
  queries (events r) =
    ["alter default privileges in schema public grant " +:+ grant
       +:+ " on tables to cloudsqliamuser;";
     "alter default privileges in schema public grant " +:+ grant
       +:+ " on sequences to cloudsqliamuser;";
     "grant " +:+ grant +:+ " on all tables in schema public to cloudsqliamuser;";
     "grant " +:+ grant +:+ " on all sequences in schema public to cloudsqliamuser;"] /\
  last (events r) = Some EvClose.
Proof.
  intros Hreach Hok. cbv zeta.
  rewrite (RunE_statements appName rest connectionString Hreach). cbv zeta.
  rewrite (execAll_succeeds ddlStatements Hok).
  unfold outcome, events. cbn [fst snd].
  split; [reflexivity|]. split; [destruct (flag_allPrivs w); reflexivity | reflexivity].
Qed.

(** X29. In every world, whatever the arguments, the statements that RunE
    sends are the first statements of the table with the privilege in
    place, in order; none of them still has the placeholder; and none is
    sent unless the answer was accepted. *)
Theorem RunE_queries args :
  let qs := queries (events (RunE w args tt)) in
  qs `prefix_of` map (fun x => setGrant x (flag_allPrivs w)) ddlStatements /\
  Forall (fun q => Fmt.Contains q "CHANGEME" = false) qs /\
  (qs <> [] -> confirmed (stdin_Text w) = true).
Proof.
  cbv zeta.
  assert (Hclean : Forall (fun q => Fmt.Contains q "CHANGEME" = false)
                     (map (fun x => setGrant x (flag_allPrivs w)) ddlStatements)).
  { destruct (flag_allPrivs w); repeat constructor. }
  assert (Hnil : forall l : list string,
            [] `prefix_of` l /\ Forall (fun q => Fmt.Contains q "CHANGEME" = false) [] /\
            (@nil string <> [] -> confirmed (stdin_Text w) = true)).
  { intros l. split; [apply prefix_nil|]. split; [constructor | congruence]. }
  unfold RunE, bind, emit, ret, panic, log_Fatal.
  destruct args as [|appName rest]; [apply Hnil|].
  destruct (NewDBInfo w appName _ _); [apply Hnil|].
  destruct (confirmed (stdin_Text w)) eqn:Hc; [|apply Hnil]. cbn [negb].
  destruct (DBConnection w) as [cs [e|]]; [apply Hnil|].
  destruct (sql_Open w "cloudsqlpostgres" cs); [apply Hnil|].
  pose proof (execAll_queries ddlStatements) as Hp.
  destruct (execAll w ddlStatements tt) as [[o t] s].
  unfold events in Hp |- *. cbn [fst snd app queries] in Hp |- *.
  split; [exact Hp|]. split; [|reflexivity].
  destruct Hp as [k Hk]. rewrite Hk in Hclean. apply Forall_app in Hclean as [H _].
  exact H.
Qed.
End PrepareFacts.

Lemma map_to_list_visits_once : visits_once map_to_list.
Proof. intros m. reflexivity. Qed.

Lemma setGrant_without_placeholder_witness :
  setGrant "select 1;" true = "select 1;".
Proof. apply (setGrant_without_placeholder true "select 1;"). reflexivity. Defined.

Lemma setGrant_first_placeholder_witness :
  setGrant "grant CHANGEME, CHANGEME on t;" false = "grant SELECT, CHANGEME on t;".
Proof.
  apply (setGrant_first_placeholder false ", CHANGEME on t;" "grant "). reflexivity.
Defined.

Lemma getSecretDataValue_unique_witness :
  getSecretDataValue map_to_list (Some secret_app) "_PASSWORD" = Ret "hunter2".
Proof.
  apply (getSecretDataValue_unique map_to_list secret_app "_PASSWORD"
           "NAIS_DATABASE_APP_DB_PASSWORD" "hunter2" map_to_list_visits_once).
  - reflexivity.
  - reflexivity.
  - intros k' [v Hv] Hs. unfold secret_app in Hv. cbn [Data] in Hv.
    apply lookup_insert_Some in Hv as [[<- _] | [_ Hv]]; [reflexivity|].
    apply lookup_singleton_Some in Hv as [<- _]. vm_compute in Hs. discriminate Hs.
Defined.

Lemma getSecretDataValue_sound_witness :
  exists v, getSecretDataValue map_to_list (Some secret_app) "_HOST" = Ret v.
Proof.
  destruct (getSecretDataValue_sound map_to_list secret_app "_HOST"
              map_to_list_visits_once) as (v & Hv & _).
  exists v. exact Hv.
Defined.


Lemma RunE_not_confirmed_witness :
  outcome (RunE (world_prepare "yes" (fun _ => None)) ["app"] tt) =
    Ret (Returned (Some (mkErr "cancelled by user" false))).
Proof.
  rewrite (RunE_not_confirmed (world_prepare "yes" (fun _ => None)) "app" []).
  - reflexivity.
  - reflexivity.
  - vm_compute. discriminate.
  - vm_compute. discriminate.
Defined.

Lemma RunE_first_failure_witness :
  outcome (RunE (world_prepare "y" refuse_grants) ["app"] tt) = Ret (Exited 1) /\
  length (queries (events (RunE (world_prepare "y" refuse_grants) ["app"] tt))) = 3.
Proof.
  destruct (RunE_first_failure (world_prepare "y" refuse_grants) "app" []
              "host=proj:region:db user=app"
              (firstn 2 ddlStatements)
              "grant CHANGEME on all tables in schema public to cloudsqliamuser;"
              (skipn 3 ddlStatements) (mkErr "permission denied" false))
    as (Ho & Hq & _).
  - repeat split.
  - reflexivity.
  - intros x [<- | [<- | []]]; reflexivity.
  - reflexivity.
  - split; [exact Ho | rewrite Hq; reflexivity].
Defined.

Lemma RunE_success_witness :
  outcome (RunE (world_prepare " Y " (fun _ => None)) ["app"] tt) = Ret (Returned None).
Proof.
  destruct (RunE_success (world_prepare " Y " (fun _ => None)) "app" []
              "host=proj:region:db user=app") as (Ho & _).
  - repeat split.
  - intros x _. reflexivity.
  - exact Ho.
Defined.

End PostgresProps.
